(** * Metrics instrumentation of the product and user services

    A shallow embedding of [product-service/app/metrics.py],
    [user-service/app/metrics.py] and the instrumented parts of
    [product-service/app/main.py].

    Python values are an inductive type, exceptions carry their base class,
    the process-wide metric registry is a record of finite maps keyed by
    metric name and label values, and every Python function that touches the
    registry or the clock is a state-passing function on [world]. *)

From Stdlib Require Import QArith Lqa Ascii.
From stdpp Require Import base gmap list strings pretty.

Set Warnings "-register-all".
Open Scope Q_scope.

(* ====================================================================== *)
(** ** Python values, exceptions and outcomes *)
(* ====================================================================== *)

Module Py.

(** The values a wrapped coroutine can return.  [PyResponse] stands for a
    framework response object: the only kind of value on which
    [hasattr(v, 'status_code')] holds. *)
Inductive pyval : Type :=
| PyNone
| PyBool (b : bool)
| PyInt (n : Z)
| PyFloat (q : Q)
| PyStr (s : string)
| PyBytes (s : string)
| PyList (xs : list pyval)
| PyDict (kvs : list (string * pyval))
| PyResponse (status_code : Z) (body : pyval).

(** [hasattr(response, 'status_code')] *)
Definition hasattr_status_code (v : pyval) : bool :=
  match v with PyResponse _ _ => true | _ => false end.

(** [response.status_code], read only after [hasattr] answered [True]. *)
Definition getattr_status_code (v : pyval) (default : Z) : Z :=
  match v with PyResponse sc _ => sc | _ => default end.

(** [v is not None] *)
Definition is_not_None (v : pyval) : bool :=
  match v with PyNone => false | _ => true end.

(** [bool(v)], Python truthiness. *)
Definition truthy (v : pyval) : bool :=
  match v with
  | PyNone => false
  | PyBool b => b
  | PyInt n => negb (n =? 0)%Z
  | PyFloat q => negb (Qeq_bool q 0)
  | PyStr s | PyBytes s => negb (String.length s =? 0)%nat
  | PyList xs => negb (length xs =? 0)%nat
  | PyDict kvs => negb (length kvs =? 0)%nat
  | PyResponse _ _ => true
  end.

(** Anything that can be raised derives from [BaseException]; what
    [except Exception] catches is only what derives from [Exception].
    [asyncio.CancelledError], [KeyboardInterrupt], [SystemExit] and
    [GeneratorExit] do not. *)
Inductive exc_base : Type := DerivesException | BaseExceptionOnly.

Record py_exception : Type := PyExc {
  exc_class : string;
  exc_kind : exc_base;
  exc_message : string
}.

(** [isinstance(e, Exception)] *)
Definition isinstance_Exception (e : py_exception) : bool :=
  match exc_kind e with DerivesException => true | BaseExceptionOnly => false end.

(** How a call ends: it returns a value or raises. *)
Inductive outcome (A : Type) : Type :=
| Returned (a : A)
| Raised (e : py_exception).
Arguments Returned {A} a.
Arguments Raised {A} e.

Definition is_Returned {A} (o : outcome A) : bool :=
  match o with Returned _ => true | Raised _ => false end.

End Py.
Export Py.

(* ====================================================================== *)
(** ** The metrics client: definitions, instances, registry *)
(* ====================================================================== *)

Module Prometheus.

(** The three kinds of metric definition.  The constructors take the
    arguments in the order the source passes them:
    name, help text, label names (and buckets). *)
Record Counter : Type := mkCounter {
  c_name : string; c_help : string; c_labelnames : list string }.

Record Gauge : Type := mkGauge {
  g_name : string; g_help : string; g_labelnames : list string }.

Record Histogram : Type := mkHistogram {
  h_name : string; h_help : string; h_labelnames : list string;
  h_buckets : list Q }.

(** Upper bound of a histogram bucket. *)
Inductive bound : Type := Finite (q : Q) | PosInf.

Definition le_bound (v : Q) (b : bound) : bool :=
  match b with Finite q => Qle_bool v q | PosInf => true end.

(** State of one histogram instance: cumulative bucket counters paired
    with their upper bounds, the running sum and the observation count. *)
Record hist_state : Type := mkHist {
  bucketCounts : list (bound * Q);
  hsum : Q;
  hcount : Q
}.

(** Instances are keyed by the metric name and the label values. *)
Abbreviation instance_key := (string * list string)%type.

Record registry : Type := mkRegistry {
  counters : gmap instance_key Q;
  gauges : gmap instance_key Q;
  histograms : gmap instance_key hist_state
}.

Definition empty_registry : registry :=
  {| counters := ∅; gauges := ∅; histograms := ∅ |}.

(** The process state the instrumented code runs in: the global registry
    and the wall clock read by [time.time()]. *)
Record world : Type := mkWorld { reg : registry; clock : Q }.

Definition with_reg (w : world) (r : registry) : world :=
  {| reg := r; clock := clock w |}.

(** Computations over the world that may raise. *)
Definition M (A : Type) : Type := world → outcome A * world.

Definition ret {A} (a : A) : M A := λ w, (Returned a, w).

Definition raise {A} (e : py_exception) : M A := λ w, (Raised e, w).

Definition bind {A B} (c : M A) (k : A → M B) : M B := λ w,
  match c w with
  | (Returned a, w') => k a w'
  | (Raised e, w') => (Raised e, w')
  end.

#[global] Instance M_ret : MRet M := @ret.
#[global] Instance M_bind : MBind M := λ A B k c, bind c k.

(** [finally] clause reached with the pending outcome [res] of the [try]
    body: the clause runs; when it completes normally the pending outcome
    continues, when it raises its exception replaces the pending one. *)
Definition finally_ {A} (res : outcome A) (fin : M ()) : M A := λ w,
  match fin w with
  | (Returned _, w') => (res, w')
  | (Raised e, w') => (Raised e, w')
  end.

(** [try: body finally: fin] *)
Definition try_finally {A} (body : M A) (fin : M ()) : M A := λ w,
  let '(res, w1) := body w in finally_ res fin w1.

(** [time.time()] *)
Definition time_time : M Q := λ w, (Returned (clock w), w).

(** *** Label handling *)

(** A keyword argument passed to [labels]: the source passes strings and,
    for [status], an integer. *)
Inductive label_arg : Type := LStr (s : string) | LInt (n : Z).

Definition py_str (a : label_arg) : string :=
  match a with LStr s => s | LInt n => pretty n end.

Fixpoint kw_lookup (k : string) (kwargs : list (string * label_arg))
  : option label_arg :=
  match kwargs with
  | [] => None
  | (k', v) :: rest => if decide (k = k') then Some v else kw_lookup k rest
  end.

Definition LabelMismatchError : py_exception :=
  PyExc "LabelMismatchError" DerivesException "Incorrect label names".

Definition NegativeIncrementError : py_exception :=
  PyExc "ValueError" DerivesException
        "Counters can only be incremented by non-negative amounts.".

(** Modelled from the spec: [labels] of the absent metrics client.  The
    supplied keywords must be exactly the definition's label names; the
    values are returned as strings in the order of the label names. *)
Definition labels (labelnames : list string)
    (kwargs : list (string * label_arg)) : outcome (list string) :=
  if decide (length kwargs = length labelnames) then
    match mapM (λ l, kw_lookup l kwargs) labelnames with
    | Some vs => Returned (py_str <$> vs)
    | None => Raised LabelMismatchError
    end
  else Raised LabelMismatchError.

(** *** Counters *)

Definition counter_value (r : registry) (k : instance_key) : Q :=
  default 0 (counters r !! k).

(** Modelled from the spec: [getOrCreate] of the absent metrics client,
    for a counter.  The instance is created at 0 on first use. *)
Definition counter_getOrCreate (k : instance_key) (r : registry) : registry :=
  match counters r !! k with
  | Some _ => r
  | None =>
      {| counters := <[k := 0]> (counters r);
         gauges := gauges r; histograms := histograms r |}
  end.

(** Modelled from the spec: [increment(amount = 1)] of the absent metrics
    client.  It fails if [amount < 0]. *)
Definition counter_increment (k : instance_key) (amount : Q) (r : registry)
  : outcome () * registry :=
  if Qlt_le_dec amount 0 then (Raised NegativeIncrementError, r)
  else
    (Returned (),
     {| counters := <[k := counter_value r k + amount]> (counters r);
        gauges := gauges r; histograms := histograms r |}).

(** [c.labels(k1=v1, ...).inc(amount)] *)
Definition inc (c : Counter) (kwargs : list (string * label_arg))
    (amount : Q) : M () := λ w,
  match labels (c_labelnames c) kwargs with
  | Raised e => (Raised e, w)
  | Returned lv =>
      let k := (c_name c, lv) in
      let '(o, r) := counter_increment k amount (counter_getOrCreate k (reg w)) in
      (o, with_reg w r)
  end.

(** *** Gauges *)

Definition gauge_value (r : registry) (k : instance_key) : Q :=
  default 0 (gauges r !! k).

(** Modelled from the spec: [set(value)] of the absent metrics client, on
    the instance obtained by [getOrCreate]; last write wins. *)
Definition gauge_set (k : instance_key) (v : Q) (r : registry) : registry :=
  {| counters := counters r;
     gauges := <[k := v]> (gauges r);
     histograms := histograms r |}.

(** [g.labels(k1=v1, ...).set(v)] *)
Definition set (g : Gauge) (kwargs : list (string * label_arg)) (v : Q)
  : M () := λ w,
  match labels (g_labelnames g) kwargs with
  | Raised e => (Raised e, w)
  | Returned lv => (Returned (), with_reg w (gauge_set (g_name g, lv) v (reg w)))
  end.

(** *** Histograms *)

(** Modelled from the spec: a fresh histogram instance has one cumulative
    counter per bucket boundary, the last bucket being +Infinity. *)
Definition hist_new (buckets : list Q) : hist_state :=
  {| bucketCounts := ((λ q, (Finite q, 0)) <$> buckets) ++ [(PosInf, 0)];
     hsum := 0; hcount := 0 |}.

Definition observe_bucket (v : Q) (b : bound * Q) : bound * Q :=
  if le_bound v b.1 then (b.1, b.2 + 1) else b.

(** Modelled from the spec: [observe(value)] of the absent metrics client.
    It increments [count], adds to [sum], and increments every bucket
    whose upper bound is [>= value]. *)
Definition hist_observe (v : Q) (h : hist_state) : hist_state :=
  {| bucketCounts := observe_bucket v <$> bucketCounts h;
     hsum := hsum h + v;
     hcount := hcount h + 1 |}.

Definition hist_lookup (h : Histogram) (r : registry) (lv : list string)
  : hist_state :=
  default (hist_new (h_buckets h)) (histograms r !! (h_name h, lv)).

(** [h.labels(k1=v1, ...).observe(v)] *)
Definition observe (h : Histogram) (kwargs : list (string * label_arg))
    (v : Q) : M () := λ w,
  match labels (h_labelnames h) kwargs with
  | Raised e => (Raised e, w)
  | Returned lv =>
      let r := reg w in
      (Returned (),
       with_reg w
         {| counters := counters r; gauges := gauges r;
            histograms :=
              <[(h_name h, lv) := hist_observe v (hist_lookup h r lv)]>
                (histograms r) |})
  end.

End Prometheus.
Export Prometheus.

(* ====================================================================== *)
(** ** Text exposition *)
(* ====================================================================== *)

Module Exposition.

(** A catalog entry: one metric definition of any kind. *)
Inductive metric : Type :=
| MCounter (c : Counter)
| MGauge (g : Gauge)
| MHistogram (h : Histogram).

Definition dquote : string := String "034"%char EmptyString.
Definition newline : string := String "010"%char EmptyString.

Definition render_Z (n : Z) : string := pretty n.

(** A number is printed in lowest terms, as an integer when it is one. *)
Definition render_Q (q : Q) : string :=
  let q' := Qred q in
  match Qden q' with
  | 1%positive => render_Z (Qnum q')
  | d => render_Z (Qnum q') +:+ "/" +:+ render_Z (Z.pos d)
  end.

Definition render_bound (b : bound) : string :=
  match b with Finite q => render_Q q | PosInf => "+Inf" end.

Fixpoint join (sep : string) (xs : list string) : string :=
  match xs with
  | [] => EmptyString
  | [x] => x
  | x :: rest => x +:+ sep +:+ join sep rest
  end.

Definition render_pair (kv : string * string) : string :=
  kv.1 +:+ "=" +:+ dquote +:+ kv.2 +:+ dquote.

(** Label values quoted, in the order of the label names. *)
Definition render_labels (pairs : list (string * string)) : string :=
  match pairs with
  | [] => EmptyString
  | _ => "{" +:+ join "," (render_pair <$> pairs) +:+ "}"
  end.

Definition sample_line (name : string) (pairs : list (string * string))
    (v : Q) : string :=
  name +:+ render_labels pairs +:+ " " +:+ render_Q v +:+ newline.

Definition header (name help kind : string) : string :=
  "# HELP " +:+ name +:+ " " +:+ help +:+ newline +:+
  "# TYPE " +:+ name +:+ " " +:+ kind +:+ newline.

(** The instances of the definition called [name], with their label
    values. *)
Definition instances_of {V} (name : string) (m : gmap instance_key V)
  : list (list string * V) :=
  omap (λ kv : instance_key * V,
          if decide (kv.1.1 = name) then Some (kv.1.2, kv.2) else None)
       (map_to_list m).

Definition render_scalar (name : string) (labelnames : list string)
    (inst : list string * Q) : string :=
  sample_line name (zip labelnames inst.1) inst.2.

Definition render_histogram (h : Histogram)
    (inst : list string * hist_state) : string :=
  let pairs := zip (h_labelnames h) inst.1 in
  String.concat EmptyString
    ((λ b : bound * Q,
        sample_line (h_name h +:+ "_bucket")
                    (pairs ++ [("le", render_bound b.1)]) b.2)
       <$> bucketCounts inst.2) +:+
  sample_line (h_name h +:+ "_sum") pairs (hsum inst.2) +:+
  sample_line (h_name h +:+ "_count") pairs (hcount inst.2).

Definition render_metric (r : registry) (m : metric) : string :=
  match m with
  | MCounter c =>
      header (c_name c) (c_help c) "counter" +:+
      String.concat EmptyString
        (render_scalar (c_name c) (c_labelnames c)
           <$> instances_of (c_name c) (counters r))
  | MGauge g =>
      header (g_name g) (g_help g) "gauge" +:+
      String.concat EmptyString
        (render_scalar (g_name g) (g_labelnames g)
           <$> instances_of (g_name g) (gauges r))
  | MHistogram h =>
      header (h_name h) (h_help h) "histogram" +:+
      String.concat EmptyString
        (render_histogram h <$> instances_of (h_name h) (histograms r))
  end.

(** Modelled from the spec: [generate_latest] of the absent metrics
    client, the exposition serializer [render].  For each definition in
    catalog-registration order it emits the HELP and TYPE lines once, then
    one data line per existing instance; for a histogram one line per
    cumulative bucket plus the [_sum] and [_count] lines.  It reads the
    registry and returns text. *)
Definition generate_latest (catalog : list metric) : M pyval := λ w,
  (Returned (PyBytes (String.concat EmptyString
                        (render_metric (reg w) <$> catalog))), w).

End Exposition.
Export Exposition.

(* ====================================================================== *)
(** ** product-service/app/metrics.py *)
(* ====================================================================== *)

Module ProductService.

(** *** Business metrics *)

Definition product_views_total : Counter :=
  mkCounter "product_views_total" "Total number of product views"
            ["product_id"; "product_name"; "category"].

Definition products_added_to_cart_total : Counter :=
  mkCounter "products_added_to_cart_total"
            "Total number of products added to cart"
            ["product_id"; "product_name"].

Definition product_search_queries_total : Counter :=
  mkCounter "product_search_queries_total"
            "Total number of product search queries" ["search_type"].

Definition product_inventory_level : Gauge :=
  mkGauge "product_inventory_level" "Current inventory level for products"
          ["product_id"; "product_name"].

Definition product_current_price : Gauge :=
  mkGauge "product_current_price" "Current price of products"
          ["product_id"; "product_name"; "currency"].

(** *** Technical metrics: HTTP *)

Definition http_requests_total : Counter :=
  mkCounter "http_requests_total" "Total HTTP requests"
            ["method"; "endpoint"; "status"].

Definition http_request_duration_seconds : Histogram :=
  mkHistogram "http_request_duration_seconds"
              "HTTP request duration in seconds" ["method"; "endpoint"]
              [0.01; 0.05; 0.1; 0.5; 1.0; 2.0; 5.0; 10.0].

(** *** Database metrics *)

Definition database_query_duration_seconds : Histogram :=
  mkHistogram "database_query_duration_seconds"
              "Database query duration in seconds" ["operation"; "table"]
              [0.001; 0.005; 0.01; 0.05; 0.1; 0.5; 1.0].

Definition database_connections_active : Gauge :=
  mkGauge "database_connections_active"
          "Number of active database connections" [].

Definition database_connections_idle : Gauge :=
  mkGauge "database_connections_idle"
          "Number of idle database connections" [].

Definition database_connections_max : Gauge :=
  mkGauge "database_connections_max"
          "Maximum number of database connections" [].

(** *** Cache metrics *)

Definition redis_cache_hits_total : Counter :=
  mkCounter "redis_cache_hits_total" "Total number of cache hits"
            ["cache_key_type"].

Definition redis_cache_misses_total : Counter :=
  mkCounter "redis_cache_misses_total" "Total number of cache misses"
            ["cache_key_type"].

Definition redis_operations_total : Counter :=
  mkCounter "redis_operations_total" "Total Redis operations" ["operation"].

Definition redis_operation_duration_seconds : Histogram :=
  mkHistogram "redis_operation_duration_seconds"
              "Redis operation duration in seconds" ["operation"]
              [0.001; 0.005; 0.01; 0.05; 0.1].

(** The module's definitions, in the order they are registered. *)
Definition catalog : list metric :=
  [ MCounter product_views_total;
    MCounter products_added_to_cart_total;
    MCounter product_search_queries_total;
    MGauge product_inventory_level;
    MGauge product_current_price;
    MCounter http_requests_total;
    MHistogram http_request_duration_seconds;
    MHistogram database_query_duration_seconds;
    MGauge database_connections_active;
    MGauge database_connections_idle;
    MGauge database_connections_max;
    MCounter redis_cache_hits_total;
    MCounter redis_cache_misses_total;
    MCounter redis_operations_total;
    MHistogram redis_operation_duration_seconds ].

(** *** Decorator functions *)

(** [track_endpoint_metrics(endpoint_name)(func)(args...)].  The local
    [status_code] starts at 200, is overwritten in the [try] body when the
    response has the attribute, and in the [except Exception] clause. *)
Definition track_endpoint_metrics {Args : Type} (endpoint_name : string)
    (func : Args → M pyval) : Args → M pyval := λ args w,
  let start_time := clock w in
  let status_code := 200%Z in
  let '(res, w1) := func args w in
  let status_code :=
    match res with
    | Returned response =>
        if hasattr_status_code response
        then getattr_status_code response status_code
        else status_code
    | Raised e =>
        if isinstance_Exception e then 500%Z else status_code
    end in
  finally_ res
    (now ← time_time;
     let duration := now - start_time in
     inc http_requests_total
         [("method", LStr "GET"); ("endpoint", LStr endpoint_name);
          ("status", LInt status_code)] 1;;
     observe http_request_duration_seconds
             [("method", LStr "GET"); ("endpoint", LStr endpoint_name)]
             duration)
    w1.

(** [track_database_query(operation, table)(func)(args...)] *)
Definition track_database_query {Args : Type} (operation table : string)
    (func : Args → M pyval) : Args → M pyval := λ args w,
  let start_time := clock w in
  try_finally
    (result ← func args; mret result)
    (now ← time_time;
     let duration := now - start_time in
     observe database_query_duration_seconds
             [("operation", LStr operation); ("table", LStr table)]
             duration)
    w.

(** [track_cache_operation(operation, key_type)(func)(args...)] *)
Definition track_cache_operation {Args : Type} (operation key_type : string)
    (func : Args → M pyval) : Args → M pyval := λ args w,
  let start_time := clock w in
  try_finally
    (result ← func args;
     (if decide (operation = "get") then
        if is_not_None result then
          inc redis_cache_hits_total [("cache_key_type", LStr key_type)] 1
        else
          inc redis_cache_misses_total [("cache_key_type", LStr key_type)] 1
      else mret ());;
     mret result)
    (now ← time_time;
     let duration := now - start_time in
     inc redis_operations_total [("operation", LStr operation)] 1;;
     observe redis_operation_duration_seconds
             [("operation", LStr operation)] duration)
    w.

(** *** Helper functions *)

Definition track_product_view (product_id product_name category : string)
  : M () :=
  inc product_views_total
      [("product_id", LStr product_id); ("product_name", LStr product_name);
       ("category", LStr category)] 1.

Definition track_add_to_cart (product_id product_name : string) : M () :=
  inc products_added_to_cart_total
      [("product_id", LStr product_id); ("product_name", LStr product_name)] 1.

Definition track_product_search (search_type : string) : M () :=
  inc product_search_queries_total [("search_type", LStr search_type)] 1.

Definition update_product_inventory (product_id product_name : string)
    (quantity : Z) : M () :=
  set product_inventory_level
      [("product_id", LStr product_id); ("product_name", LStr product_name)]
      (inject_Z quantity).

Definition update_product_price (product_id product_name : string)
    (price : Q) (currency : string) : M () :=
  set product_current_price
      [("product_id", LStr product_id); ("product_name", LStr product_name);
       ("currency", LStr currency)] price.

Definition update_db_connection_stats (active idle max_conn : Z) : M () :=
  set database_connections_active [] (inject_Z active);;
  set database_connections_idle [] (inject_Z idle);;
  set database_connections_max [] (inject_Z max_conn).

(** *** Metrics endpoint *)

Definition get_metrics : M pyval := generate_latest catalog.

End ProductService.

(* ====================================================================== *)
(** ** product-service/app/main.py: the instrumented handlers *)
(* ====================================================================== *)

Module ProductMain.
Import ProductService.

(** What the handlers and the middleware read of a request. *)
Record Request : Type := mkRequest { method : string; url_path : string }.

Record ProductSearch : Type := mkProductSearch {
  query : string; category : option string }.

Record CartItem : Type := mkCartItem { product_id : string; quantity : Z }.

Definition AttributeError : py_exception :=
  PyExc "AttributeError" DerivesException "status_code".

Definition NameError : py_exception :=
  PyExc "NameError" DerivesException "name 'asyncio' is not defined".

(** The [http] middleware [track_requests(request, call_next)]: it labels
    both metrics with [request.method]. *)
Definition track_requests (request : Request)
    (call_next : Request → M pyval) : M pyval := λ w,
  let start_time := clock w in
  (response ← call_next request;
   now ← time_time;
   let duration := now - start_time in
   match response with
   | PyResponse status_code _ =>
       inc http_requests_total
           [("method", LStr (method request));
            ("endpoint", LStr (url_path request));
            ("status", LInt status_code)] 1;;
       observe http_request_duration_seconds
               [("method", LStr (method request));
                ("endpoint", LStr (url_path request))] duration;;
       mret response
   | _ => raise AttributeError
   end) w.

(** Body of [get_product(product_id)]. *)
Definition get_product_body (product_id : string) : M pyval :=
  let product :=
    PyDict [("id", PyStr product_id); ("name", PyStr "Sample Product");
            ("description", PyStr "This is a sample product");
            ("price", PyFloat 29.99); ("category", PyStr "Electronics");
            ("inventory", PyInt 100)] in
  track_product_view product_id "Sample Product" "Electronics";;
  mret product.

(** Body of [search_products(search)]; [if search.category] is the
    truthiness of an optional string. *)
Definition search_products_body (search : ProductSearch) : M pyval :=
  (if bool_decide (is_Some (category search))
      && truthy (PyStr (default EmptyString (category search)))
   then track_product_search "category"
   else track_product_search "full_text");;
  let results :=
    [PyDict [("id", PyStr "prod-1");
             ("name", PyStr ("Product matching '" +:+ query search +:+ "'"));
             ("price", PyFloat 39.99); ("category", PyStr "Electronics");
             ("relevance_score", PyFloat 0.95)]] in
  mret (PyDict [("results", PyList results);
                ("total", PyInt (Z.of_nat (length results)))]).

(** Body of [add_to_cart(item)]. *)
Definition add_to_cart_body (item : CartItem) : M pyval :=
  let product_name := "Product " +:+ product_id item in
  track_add_to_cart (product_id item) product_name;;
  mret (PyDict [("message", PyStr "Product added to cart");
                ("product_id", PyStr (product_id item));
                ("quantity", PyInt (quantity item))]).

(** Body of [get_product_from_db(product_id)]: it awaits
    [asyncio.sleep], and the module never imports [asyncio]. *)
Definition get_product_from_db_body (product_id : string) : M pyval :=
  raise NameError.

(** Body of [get_product_from_cache(product_id)]: always a miss. *)
Definition get_product_from_cache_body (product_id : string) : M pyval :=
  mret PyNone.

(** The decorated functions, as the module binds them. *)
Definition get_product : string → M pyval :=
  track_endpoint_metrics "get_product" get_product_body.

Definition search_products : ProductSearch → M pyval :=
  track_endpoint_metrics "search_products" search_products_body.

Definition add_to_cart : CartItem → M pyval :=
  track_endpoint_metrics "add_to_cart" add_to_cart_body.

Definition get_product_from_db : string → M pyval :=
  track_database_query "select" "products" get_product_from_db_body.

Definition get_product_from_cache : string → M pyval :=
  track_cache_operation "get" "product" get_product_from_cache_body.

(** A route registration [@app.<verb>(path)] over a decorated handler:
    the framework calls [endpoint] for requests whose method is
    [route_method]. *)
Record route (Args : Type) : Type := mkRoute {
  route_method : string;
  route_path : string;
  endpoint : Args → M pyval
}.
Arguments mkRoute {Args} _ _ _.
Arguments route_method {Args} _.
Arguments route_path {Args} _.
Arguments endpoint {Args} _.

Definition get_product_route : route string :=
  mkRoute "GET" "/products/{product_id}" get_product.

Definition search_products_route : route ProductSearch :=
  mkRoute "POST" "/products/search" search_products.

Definition add_to_cart_route : route CartItem :=
  mkRoute "POST" "/cart/add" add_to_cart.

(** *** The remaining handlers of the module *)

(** The request model [Product]; the fields carry a prefix because the
    module's other models already use [category] and [product_id]. *)
Record Product : Type := mkProduct {
  p_id : string; p_name : string; p_description : string; p_price : Q;
  p_category : string; p_inventory : Z; p_image_url : option string }.

(** The model as it appears inside a returned dict. *)
Definition product_to_py (p : Product) : pyval :=
  PyDict [("id", PyStr (p_id p)); ("name", PyStr (p_name p));
          ("description", PyStr (p_description p));
          ("price", PyFloat (p_price p));
          ("category", PyStr (p_category p));
          ("inventory", PyInt (p_inventory p));
          ("image_url", match p_image_url p with
                        | Some u => PyStr u | None => PyNone end)].

(** [range(a, a + n)] *)
Definition range_from (a n : Z) : list Z :=
  (λ i : nat, (a + Z.of_nat i)%Z) <$> seq 0 (Z.to_nat n).

(** [for x in xs: body(x)] *)
Fixpoint for_each {A} (xs : list A) (body : A → M ()) : M () :=
  match xs with
  | [] => mret ()
  | x :: rest => body x;; for_each rest body
  end.

(** [x or default] on an optional string. *)
Definition str_or (x : option string) (default : string) : string :=
  match x with
  | Some s => if truthy (PyStr s) then s else default
  | None => default
  end.

(** The [/metrics] endpoint: a plain-text response, status 200 by default,
    around [get_metrics()].  It is not decorated. *)
Definition metrics : M pyval :=
  content ← get_metrics; mret (PyResponse 200 content).

(** Body of [list_products(category, limit, offset)]. *)
Definition list_products_body (args : option string * Z * Z) : M pyval :=
  let '(category, limit, offset) := args in
  let products :=
    (λ i : Z,
       PyDict [("id", PyStr ("prod-" +:+ pretty i));
               ("name", PyStr ("Product " +:+ pretty i));
               ("price", PyFloat (29.99 + inject_Z i));
               ("category", PyStr (str_or category "General"));
               ("inventory", PyInt (100 - i))])
      <$> range_from offset limit in
  mret (PyDict [("products", PyList products); ("total", PyInt 1000);
                ("limit", PyInt limit); ("offset", PyInt offset)]).

(** Body of [create_product(product)]. *)
Definition create_product_body (product : Product) : M pyval :=
  update_product_inventory (p_id product) (p_name product)
                           (p_inventory product);;
  update_product_price (p_id product) (p_name product) (p_price product)
                       "USD";;
  mret (PyDict [("message", PyStr "Product created");
                ("product", product_to_py product)]).

(** Body of [update_inventory(product_id, quantity)]. *)
Definition update_inventory_body (args : string * Z) : M pyval :=
  let '(product_id, quantity) := args in
  update_product_inventory product_id ("Product " +:+ product_id) quantity;;
  mret (PyDict [("message", PyStr "Inventory updated");
                ("product_id", PyStr product_id);
                ("new_quantity", PyInt quantity)]).

(** Body of [update_price(product_id, price)]. *)
Definition update_price_body (args : string * Q) : M pyval :=
  let '(product_id, price) := args in
  update_product_price product_id ("Product " +:+ product_id) price "USD";;
  mret (PyDict [("message", PyStr "Price updated");
                ("product_id", PyStr product_id);
                ("new_price", PyFloat price)]).

Definition list_products : option string * Z * Z → M pyval :=
  track_endpoint_metrics "list_products" list_products_body.

Definition create_product : Product → M pyval :=
  track_endpoint_metrics "create_product" create_product_body.

Definition update_inventory : string * Z → M pyval :=
  track_endpoint_metrics "update_inventory" update_inventory_body.

Definition update_price : string * Q → M pyval :=
  track_endpoint_metrics "update_price" update_price_body.

(** [startup_event()]: the baseline gauges of five sample products.  Its two
    [print] calls write to standard output, which [world] does not hold. *)
Definition startup_event : M () :=
  for_each (range_from 1 5)
    (λ i,
       update_product_inventory ("prod-" +:+ pretty i)
                                ("Sample Product " +:+ pretty i) 100;;
       update_product_price ("prod-" +:+ pretty i)
                            ("Sample Product " +:+ pretty i)
                            (29.99 * inject_Z i) "USD").


End ProductMain.

(* ====================================================================== *)
(** ** user-service/app/metrics.py *)
(* ====================================================================== *)

Module UserService.

(** *** Business metrics *)

Definition user_registrations_total : Counter :=
  mkCounter "user_registrations_total" "Total number of user registrations"
            ["source"].

Definition user_login_attempts_total : Counter :=
  mkCounter "user_login_attempts_total" "Total number of login attempts"
            ["status"; "method"].

Definition user_active_sessions : Gauge :=
  mkGauge "user_active_sessions" "Number of active user sessions" [].

Definition user_sessions_created_total : Counter :=
  mkCounter "user_sessions_created_total" "Total number of sessions created" [].

Definition user_password_reset_requests_total : Counter :=
  mkCounter "user_password_reset_requests_total"
            "Total number of password reset requests" ["status"].

Definition user_profile_updates_total : Counter :=
  mkCounter "user_profile_updates_total" "Total number of profile updates"
            ["field"].

Definition user_email_verifications_total : Counter :=
  mkCounter "user_email_verifications_total"
            "Total number of email verifications" ["status"].

Definition user_account_actions_total : Counter :=
  mkCounter "user_account_actions_total" "Total number of account actions"
            ["action"].

(** *** Technical metrics: HTTP *)

Definition http_requests_total : Counter :=
  mkCounter "http_requests_total" "Total HTTP requests"
            ["method"; "endpoint"; "status"].

Definition http_request_duration_seconds : Histogram :=
  mkHistogram "http_request_duration_seconds"
              "HTTP request duration in seconds" ["method"; "endpoint"]
              [0.01; 0.05; 0.1; 0.5; 1.0; 2.0; 5.0; 10.0].

(** *** Authentication metrics *)

Definition jwt_tokens_issued_total : Counter :=
  mkCounter "jwt_tokens_issued_total" "Total number of JWT tokens issued"
            ["token_type"].

Definition jwt_tokens_validated_total : Counter :=
  mkCounter "jwt_tokens_validated_total"
            "Total number of JWT token validations" ["status"].

Definition jwt_tokens_revoked_total : Counter :=
  mkCounter "jwt_tokens_revoked_total" "Total number of JWT tokens revoked"
            ["reason"].

Definition auth_operation_duration_seconds : Histogram :=
  mkHistogram "auth_operation_duration_seconds"
              "Authentication operation duration in seconds" ["operation"]
              [0.01; 0.05; 0.1; 0.5; 1.0].

(** *** Database metrics *)

Definition database_query_duration_seconds : Histogram :=
  mkHistogram "database_query_duration_seconds"
              "Database query duration in seconds" ["operation"; "table"]
              [0.001; 0.005; 0.01; 0.05; 0.1; 0.5; 1.0].

Definition database_connections_active : Gauge :=
  mkGauge "database_connections_active"
          "Number of active database connections" [].

Definition database_connections_idle : Gauge :=
  mkGauge "database_connections_idle"
          "Number of idle database connections" [].

(** *** Cache metrics *)

Definition redis_cache_hits_total : Counter :=
  mkCounter "redis_cache_hits_total" "Total number of cache hits"
            ["cache_key_type"].

Definition redis_cache_misses_total : Counter :=
  mkCounter "redis_cache_misses_total" "Total number of cache misses"
            ["cache_key_type"].

Definition redis_operations_total : Counter :=
  mkCounter "redis_operations_total" "Total Redis operations" ["operation"].

(** *** Security metrics *)

Definition failed_login_attempts_by_ip : Counter :=
  mkCounter "failed_login_attempts_by_ip"
            "Failed login attempts grouped by IP" ["ip_address"].

Definition suspicious_activities_total : Counter :=
  mkCounter "suspicious_activities_total"
            "Total number of suspicious activities detected"
            ["activity_type"].

Definition rate_limit_exceeded_total : Counter :=
  mkCounter "rate_limit_exceeded_total"
            "Total number of rate limit violations" ["endpoint"; "user_id"].

Definition catalog : list metric :=
  [ MCounter user_registrations_total;
    MCounter user_login_attempts_total;
    MGauge user_active_sessions;
    MCounter user_sessions_created_total;
    MCounter user_password_reset_requests_total;
    MCounter user_profile_updates_total;
    MCounter user_email_verifications_total;
    MCounter user_account_actions_total;
    MCounter http_requests_total;
    MHistogram http_request_duration_seconds;
    MCounter jwt_tokens_issued_total;
    MCounter jwt_tokens_validated_total;
    MCounter jwt_tokens_revoked_total;
    MHistogram auth_operation_duration_seconds;
    MHistogram database_query_duration_seconds;
    MGauge database_connections_active;
    MGauge database_connections_idle;
    MCounter redis_cache_hits_total;
    MCounter redis_cache_misses_total;
    MCounter redis_operations_total;
    MCounter failed_login_attempts_by_ip;
    MCounter suspicious_activities_total;
    MCounter rate_limit_exceeded_total ].

(** *** Decorator functions *)

(** [track_endpoint_metrics(endpoint_name)(func)(args...)] *)
Definition track_endpoint_metrics {Args : Type} (endpoint_name : string)
    (func : Args → M pyval) : Args → M pyval := λ args w,
  let start_time := clock w in
  let status_code := 200%Z in
  let '(res, w1) := func args w in
  let status_code :=
    match res with
    | Returned response =>
        if hasattr_status_code response
        then getattr_status_code response status_code
        else status_code
    | Raised e =>
        if isinstance_Exception e then 500%Z else status_code
    end in
  finally_ res
    (now ← time_time;
     let duration := now - start_time in
     inc http_requests_total
         [("method", LStr "POST"); ("endpoint", LStr endpoint_name);
          ("status", LInt status_code)] 1;;
     observe http_request_duration_seconds
             [("method", LStr "POST"); ("endpoint", LStr endpoint_name)]
             duration)
    w1.

(** [track_auth_operation(operation)(func)(args...)] *)
Definition track_auth_operation {Args : Type} (operation : string)
    (func : Args → M pyval) : Args → M pyval := λ args w,
  let start_time := clock w in
  try_finally
    (result ← func args; mret result)
    (now ← time_time;
     let duration := now - start_time in
     observe auth_operation_duration_seconds
             [("operation", LStr operation)] duration)
    w.

(** *** Helper functions *)

Definition track_user_registration (source : string) : M () :=
  inc user_registrations_total [("source", LStr source)] 1.

Definition track_login_attempt (success : bool) (method : string) : M () :=
  let status := if success then "success" else "failed" in
  inc user_login_attempts_total
      [("status", LStr status); ("method", LStr method)] 1.

Definition track_failed_login_by_ip (ip_address : string) : M () :=
  inc failed_login_attempts_by_ip [("ip_address", LStr ip_address)] 1.

Definition track_session_creation : M () :=
  inc user_sessions_created_total [] 1.

Definition update_active_sessions (count : Z) : M () :=
  set user_active_sessions [] (inject_Z count).

Definition track_password_reset (status : string) : M () :=
  inc user_password_reset_requests_total [("status", LStr status)] 1.

Definition track_profile_update (field : string) : M () :=
  inc user_profile_updates_total [("field", LStr field)] 1.

Definition track_email_verification (status : string) : M () :=
  inc user_email_verifications_total [("status", LStr status)] 1.

Definition track_account_action (action : string) : M () :=
  inc user_account_actions_total [("action", LStr action)] 1.

Definition track_jwt_issued (token_type : string) : M () :=
  inc jwt_tokens_issued_total [("token_type", LStr token_type)] 1.

Definition track_jwt_validated (status : string) : M () :=
  inc jwt_tokens_validated_total [("status", LStr status)] 1.

Definition track_jwt_revoked (reason : string) : M () :=
  inc jwt_tokens_revoked_total [("reason", LStr reason)] 1.

Definition track_suspicious_activity (activity_type : string) : M () :=
  inc suspicious_activities_total [("activity_type", LStr activity_type)] 1.

Definition track_rate_limit_exceeded (endpoint user_id : string) : M () :=
  inc rate_limit_exceeded_total
      [("endpoint", LStr endpoint); ("user_id", LStr user_id)] 1.

(** *** Metrics endpoint *)

Definition get_metrics : M pyval := generate_latest catalog.

End UserService.

(* ====================================================================== *)
(** ** Observations on registries used by the statements *)
(* ====================================================================== *)

Module Props.

(** Registry after [c.labels(...).inc(amount)] on instance [k]. *)
Definition reg_inc (k : instance_key) (amount : Q) (r : registry) : registry :=
  (counter_increment k amount (counter_getOrCreate k r)).2.

(** Registry after [h.labels(...).observe(v)] on the instance [lv]. *)
Definition reg_observe (h : Histogram) (lv : list string) (v : Q)
    (r : registry) : registry :=
  {| counters := counters r; gauges := gauges r;
     histograms :=
       <[(h_name h, lv) := hist_observe v (hist_lookup h r lv)]>
         (histograms r) |}.

(** Observation count of a histogram instance; an instance that does not
    exist has seen nothing. *)
Definition hist_count (r : registry) (k : instance_key) : Q :=
  default 0 (hcount <$> histograms r !! k).

(** Counter instance [(c, lv)] went up by exactly one between [r1] and
    [r2], and no other counter instance changed. *)
Definition incremented_once (c : Counter) (lv : list string)
    (r1 r2 : registry) : Prop :=
  counter_value r2 (c_name c, lv) = counter_value r1 (c_name c, lv) + 1 ∧
  ∀ k, k ≠ (c_name c, lv) → counters r2 !! k = counters r1 !! k.

(** Histogram instance [(h, lv)] received exactly one observation between
    [r1] and [r2], and no other histogram instance changed. *)
Definition observed_once (h : Histogram) (lv : list string)
    (r1 r2 : registry) : Prop :=
  hist_count r2 (h_name h, lv) = hist_count r1 (h_name h, lv) + 1 ∧
  ∀ k, k ≠ (h_name h, lv) → histograms r2 !! k = histograms r1 !! k.

(** No instance of counter [c] changed between [r1] and [r2]. *)
Definition counter_untouched (c : Counter) (r1 r2 : registry) : Prop :=
  ∀ lv, counters r2 !! (c_name c, lv) = counters r1 !! (c_name c, lv).

(** Counters never went down between [r1] and [r2]. *)
Definition counters_le (r1 r2 : registry) : Prop :=
  ∀ k, counter_value r1 k <= counter_value r2 k.

(** A computation that never lowers a counter. *)
Definition monotone {A} (c : M A) : Prop :=
  ∀ w, counters_le (reg w) (reg (c w).2).

(** The value of the local [status_code] when the [finally] clause of the
    endpoint wrapper runs. *)
Definition recorded_status (res : outcome pyval) : Z :=
  match res with
  | Returned response =>
      if hasattr_status_code response
      then getattr_status_code response 200%Z else 200%Z
  | Raised e => if isinstance_Exception e then 500%Z else 200%Z
  end.

(** The outcome status as the specification words it, for an exception
    that derives from [Exception]. *)
Inductive status_classified : outcome pyval → Z → Prop :=
| SC_exposed sc body :
    status_classified (Returned (PyResponse sc body)) sc
| SC_default v :
    hasattr_status_code v = false → status_classified (Returned v) 200%Z
| SC_failure e :
    isinstance_Exception e = true → status_classified (Raised e) 500%Z.

(** Does counter key [k] belong to the request counter [name] with the
    given method and endpoint, whatever its status? *)
Definition is_request_key (name m e : string) (k : instance_key) : bool :=
  match k with
  | (n, [m'; e'; _]) =>
      bool_decide (n = name) && bool_decide (m' = m) && bool_decide (e' = e)
  | _ => false
  end.

(** Sum of the counter instances selected by [P]. *)
Definition counter_sum (P : instance_key → bool) (cs : gmap instance_key Q) : Q :=
  map_fold (λ k v acc, if P k then v + acc else acc) 0 cs.

(** The request counter summed over all status values, for one
    [(method, endpoint)] pair. *)
Definition requests_sum (c : Counter) (m e : string) (r : registry) : Q :=
  counter_sum (is_request_key (c_name c) m e) (counters r).

(** The two HTTP metrics agree on every [(method, endpoint)] pair. *)
Definition linked (c : Counter) (h : Histogram) (r : registry) : Prop :=
  ∀ m e, hist_count r (h_name h, [m; e]) == requests_sum c m e r.

(** The world after observing [vs] in turn on a fresh histogram. *)
Definition observe_all (buckets : list Q) (vs : list Q) : hist_state :=
  foldl (λ h v, hist_observe v h) (hist_new buckets) vs.

Definition w0 : world := mkWorld empty_registry 0.

Definition CancelledError : py_exception :=
  PyExc "CancelledError" BaseExceptionOnly EmptyString.

(** A handler cancelled while it is awaited. *)
Definition cancelled_handler : () → M pyval := λ _, raise CancelledError.

(** Registry after the [try] body of the cache wrapper, from the registry
    [func] left: the hit or miss increment of a [get] that returned. *)
Definition cache_body_reg (operation key_type : string)
    (res : outcome pyval) (r : registry) : registry :=
  match res with
  | Returned result =>
      if decide (operation = "get") then
        if is_not_None result
        then reg_inc ("redis_cache_hits_total", [key_type]) 1 r
        else reg_inc ("redis_cache_misses_total", [key_type]) 1 r
      else r
  | Raised _ => r
  end.

(** *** The operations the two modules expose

    A call of an exposed function with its arguments; for a decorator,
    [func] is the wrapped coroutine already applied to its arguments. *)
Inductive product_call : Type :=
| P_track_product_view (product_id product_name category : string)
| P_track_add_to_cart (product_id product_name : string)
| P_track_product_search (search_type : string)
| P_update_product_inventory (product_id product_name : string) (quantity : Z)
| P_update_product_price (product_id product_name : string) (price : Q)
                         (currency : string)
| P_update_db_connection_stats (active idle max_conn : Z)
| P_get_metrics
| P_track_endpoint_metrics (endpoint_name : string) (func : M pyval)
| P_track_database_query (operation table : string) (func : M pyval)
| P_track_cache_operation (operation key_type : string) (func : M pyval).

Inductive user_call : Type :=
| U_track_user_registration (source : string)
| U_track_login_attempt (success : bool) (method : string)
| U_track_failed_login_by_ip (ip_address : string)
| U_track_session_creation
| U_update_active_sessions (count : Z)
| U_track_password_reset (status : string)
| U_track_profile_update (field : string)
| U_track_email_verification (status : string)
| U_track_account_action (action : string)
| U_track_jwt_issued (token_type : string)
| U_track_jwt_validated (status : string)
| U_track_jwt_revoked (reason : string)
| U_track_suspicious_activity (activity_type : string)
| U_track_rate_limit_exceeded (endpoint user_id : string)
| U_get_metrics
| U_track_endpoint_metrics (endpoint_name : string) (func : M pyval)
| U_track_auth_operation (operation : string) (func : M pyval).

(** A function without a [return] statement returns [None]. *)
Definition returns_None (c : M ()) : M pyval := c;; mret PyNone.

Definition run_product (c : product_call) : M pyval :=
  match c with
  | P_track_product_view i n cat =>
      returns_None (ProductService.track_product_view i n cat)
  | P_track_add_to_cart i n =>
      returns_None (ProductService.track_add_to_cart i n)
  | P_track_product_search t =>
      returns_None (ProductService.track_product_search t)
  | P_update_product_inventory i n q =>
      returns_None (ProductService.update_product_inventory i n q)
  | P_update_product_price i n p cur =>
      returns_None (ProductService.update_product_price i n p cur)
  | P_update_db_connection_stats a i m =>
      returns_None (ProductService.update_db_connection_stats a i m)
  | P_get_metrics => ProductService.get_metrics
  | P_track_endpoint_metrics e func =>
      ProductService.track_endpoint_metrics e (λ _ : (), func) ()
  | P_track_database_query op table func =>
      ProductService.track_database_query op table (λ _ : (), func) ()
  | P_track_cache_operation op kt func =>
      ProductService.track_cache_operation op kt (λ _ : (), func) ()
  end.

Definition run_user (c : user_call) : M pyval :=
  match c with
  | U_track_user_registration s =>
      returns_None (UserService.track_user_registration s)
  | U_track_login_attempt b m =>
      returns_None (UserService.track_login_attempt b m)
  | U_track_failed_login_by_ip ip =>
      returns_None (UserService.track_failed_login_by_ip ip)
  | U_track_session_creation =>
      returns_None UserService.track_session_creation
  | U_update_active_sessions n =>
      returns_None (UserService.update_active_sessions n)
  | U_track_password_reset s =>
      returns_None (UserService.track_password_reset s)
  | U_track_profile_update f =>
      returns_None (UserService.track_profile_update f)
  | U_track_email_verification s =>
      returns_None (UserService.track_email_verification s)
  | U_track_account_action a =>
      returns_None (UserService.track_account_action a)
  | U_track_jwt_issued t => returns_None (UserService.track_jwt_issued t)
  | U_track_jwt_validated s =>
      returns_None (UserService.track_jwt_validated s)
  | U_track_jwt_revoked r => returns_None (UserService.track_jwt_revoked r)
  | U_track_suspicious_activity a =>
      returns_None (UserService.track_suspicious_activity a)
  | U_track_rate_limit_exceeded e u =>
      returns_None (UserService.track_rate_limit_exceeded e u)
  | U_get_metrics => UserService.get_metrics
  | U_track_endpoint_metrics e func =>
      UserService.track_endpoint_metrics e (λ _ : (), func) ()
  | U_track_auth_operation op func =>
      UserService.track_auth_operation op (λ _ : (), func) ()
  end.

(** The coroutine a decorator call wraps, if the call is one. *)
Definition product_wrapped (c : product_call) : option (M pyval) :=
  match c with
  | P_track_endpoint_metrics _ func
  | P_track_database_query _ _ func
  | P_track_cache_operation _ _ func => Some func
  | _ => None
  end.

Definition user_wrapped (c : user_call) : option (M pyval) :=
  match c with
  | U_track_endpoint_metrics _ func
  | U_track_auth_operation _ func => Some func
  | _ => None
  end.

(** Counter instance [(c, lv)] went up by exactly one between [r1] and
    [r2]; other instances are not constrained. *)
Definition counted_once (c : Counter) (lv : list string)
    (r1 r2 : registry) : Prop :=
  counter_value r2 (c_name c, lv) = counter_value r1 (c_name c, lv) + 1.

(** Of the instances of counter [c], exactly [lv] went up, by one. *)
Definition instance_incremented (c : Counter) (lv : list string)
    (r1 r2 : registry) : Prop :=
  counted_once c lv r1 r2 ∧
  ∀ lv', lv' ≠ lv → counters r2 !! (c_name c, lv') = counters r1 !! (c_name c, lv').

(** The bucket bound [b] is [>= v]. *)
Definition bound_ge (b : bound) (v : Q) : Prop :=
  match b with Finite q => v <= q | PosInf => True end.

(** Is the coroutine wrapped by a decorator call monotone?  Other calls
    wrap nothing. *)
Definition wrapped_monotone (wrapped : option (M pyval)) : Prop :=
  match wrapped with Some func => monotone func | None => True end.


(** Sample coroutines used to exercise the decorators. *)

(** A handler that answers with a response object carrying status 201. *)
Definition created_handler : () → M pyval :=
  λ _, mret (PyResponse 201 (PyDict [("message", PyStr "Product created")])).

(** A cache lookup that finds the product. *)
Definition cached_product : string → M pyval :=
  λ product_id, mret (PyDict [("id", PyStr product_id)]).

(** A cache lookup that finds an empty string, an empty list, or zero. *)
Definition cached_empty_string : string → M pyval := λ _, mret (PyStr EmptyString).
Definition cached_empty_list : string → M pyval := λ _, mret (PyList []).
Definition cached_zero : string → M pyval := λ _, mret (PyInt 0).

(** A cache write. *)
Definition cache_store : string → M pyval := λ _, mret (PyBool true).

(** *** Observations used for the remaining functions *)

(** The state of a histogram instance, an absent one being fresh. *)
Definition hist_at (h : Histogram) (lv : list string) (r : registry)
  : hist_state := hist_lookup h r lv.

(** Nothing but gauges differs between [r1] and [r2]. *)
Definition only_gauges_changed (r1 r2 : registry) : Prop :=
  counters r2 = counters r1 ∧ histograms r2 = histograms r1.

(** Gauge instance [k] was written with [v] between [r1] and [r2], and no
    other gauge instance changed. *)
Definition gauge_written (k : instance_key) (v : Q) (r1 r2 : registry) : Prop :=
  gauges r2 !! k = Some v ∧ ∀ k', k' ≠ k → gauges r2 !! k' = gauges r1 !! k'.

(** A computation that keeps the two HTTP metrics of a service linked. *)
Definition keeps_linked {A} (c : M A) : Prop :=
  ∀ w, linked ProductService.http_requests_total
              ProductService.http_request_duration_seconds (reg w) →
       linked ProductService.http_requests_total
              ProductService.http_request_duration_seconds (reg (c w).2).

(** Does the coroutine wrapped by a decorator call keep them linked? *)
Definition wrapped_keeps_linked (wrapped : option (M pyval)) : Prop :=
  match wrapped with Some func => keeps_linked func | None => True end.

(** The downstream application as the middleware sees it. *)
Definition serve_metrics : ProductMain.Request → M pyval :=
  λ _, ProductMain.metrics.

(** The recorder [c] returns normally, raises exactly the counter instance
    [(C, lv)] by one and touches nothing else. *)
Definition records_event (c : M ()) (C : Counter) (lv : list string) : Prop :=
  ∀ w, (c w).1 = Returned () ∧
       incremented_once C lv (reg w) (reg (c w).2) ∧
       gauges (reg (c w).2) = gauges (reg w) ∧
       histograms (reg (c w).2) = histograms (reg w) ∧
       clock (c w).2 = clock w.

(** The updater [c] returns normally, writes [v] to the gauge instance [k]
    and touches nothing else. *)
Definition writes_gauge (c : M ()) (k : instance_key) (v : Q) : Prop :=
  ∀ w, (c w).1 = Returned () ∧
       gauge_written k v (reg w) (reg (c w).2) ∧
       only_gauges_changed (reg w) (reg (c w).2).

(** Writing the pairs of [kvs] one after the other into a map. *)
Definition write_all (kvs : list (instance_key * Q))
    (m : gmap instance_key Q) : gmap instance_key Q :=
  foldl (λ acc kv, <[kv.1 := kv.2]> acc) m kvs.

(** The gauge writes of [startup_event], in the order it makes them. *)
Definition startup_writes : list (instance_key * Q) :=
  foldr (λ i acc,
           (("product_inventory_level",
             ["prod-" +:+ pretty i; "Sample Product " +:+ pretty i]), 100)
           :: (("product_current_price",
                ["prod-" +:+ pretty i; "Sample Product " +:+ pretty i; "USD"]),
               29.99 * inject_Z i)
           :: acc)
        [] (ProductMain.range_from 1 5).

(** Viewing the products [ids] one after the other. *)
Definition view_all (ids : list string) (name category : string) : M () :=
  ProductMain.for_each ids
    (λ i, ProductService.track_product_view i name category).


End Props.
Export Props.

(* ====================================================================== *)
(** ** Facts about the metrics client *)
(* ====================================================================== *)

Section ClientFacts.

Implicit Types (r : registry) (k : instance_key) (w : world).

Lemma counter_getOrCreate_value k r k' :
  counter_value (counter_getOrCreate k r) k' = counter_value r k'.
Proof.
  unfold counter_getOrCreate, counter_value.
  destruct (counters r !! k) as [v|] eqn:Hk; [done|]. cbn.
  destruct (decide (k = k')) as [->|Hne].
  - by rewrite lookup_insert_eq, Hk.
  - by rewrite lookup_insert_ne.
Qed.

Lemma reg_inc_counters k a r :
  0 <= a →
  counters (reg_inc k a r) = <[k := counter_value r k + a]> (counters r).
Proof.
  intros Ha. unfold reg_inc, counter_increment.
  destruct (Qlt_le_dec a 0) as [Hlt|_].
  { exfalso. apply (Qlt_not_le _ _ Hlt Ha). }
  cbn. rewrite counter_getOrCreate_value.
  unfold counter_getOrCreate.
  destruct (counters r !! k) eqn:Hk; [done|]. cbn.
  by rewrite insert_insert_eq.
Qed.

Lemma reg_inc_gauges k a r : gauges (reg_inc k a r) = gauges r.
Proof.
  unfold reg_inc, counter_increment, counter_getOrCreate.
  destruct (Qlt_le_dec a 0); destruct (counters r !! k); done.
Qed.

Lemma reg_inc_histograms k a r : histograms (reg_inc k a r) = histograms r.
Proof.
  unfold reg_inc, counter_increment, counter_getOrCreate.
  destruct (Qlt_le_dec a 0); destruct (counters r !! k); done.
Qed.

Lemma Q01 : 0 <= 1.
Proof. discriminate. Qed.

Lemma reg_inc_value_eq k r :
  counter_value (reg_inc k 1 r) k = counter_value r k + 1.
Proof.
  unfold counter_value at 1.
  by rewrite (reg_inc_counters k 1 r Q01), lookup_insert_eq.
Qed.

Lemma reg_inc_lookup_ne k k' r :
  k' ≠ k → counters (reg_inc k 1 r) !! k' = counters r !! k'.
Proof.
  intros Hne. by rewrite (reg_inc_counters k 1 r Q01), lookup_insert_ne.
Qed.

Lemma reg_inc_incremented_once (c : Counter) lv r :
  incremented_once c lv r (reg_inc (c_name c, lv) 1 r).
Proof.
  split; [apply reg_inc_value_eq|]. intros k Hk. by apply reg_inc_lookup_ne.
Qed.

Lemma hist_count_lookup (h : Histogram) lv r :
  hcount (hist_lookup h r lv) = hist_count r (h_name h, lv).
Proof.
  unfold hist_lookup, hist_count.
  destruct (histograms r !! (h_name h, lv)); reflexivity.
Qed.

Lemma reg_observe_observed_once (h : Histogram) lv v r :
  observed_once h lv r (reg_observe h lv v r).
Proof.
  split.
  - unfold hist_count at 1, reg_observe. cbn.
    rewrite lookup_insert_eq. cbn. by rewrite hist_count_lookup.
  - intros k Hk. unfold reg_observe. cbn. by rewrite lookup_insert_ne.
Qed.

(** [inc] by one on well-formed labels never raises. *)
Lemma inc_run (c : Counter) kwargs lv w :
  labels (c_labelnames c) kwargs = Returned lv →
  inc c kwargs 1 w = (Returned (), with_reg w (reg_inc (c_name c, lv) 1 (reg w))).
Proof. intros Hl. unfold inc. by rewrite Hl. Qed.

Lemma observe_run (h : Histogram) kwargs lv v w :
  labels (h_labelnames h) kwargs = Returned lv →
  observe h kwargs v w = (Returned (), with_reg w (reg_observe h lv v (reg w))).
Proof. intros Hl. unfold observe. by rewrite Hl. Qed.

End ClientFacts.

(* ====================================================================== *)
(** ** What each decorator computes *)
(* ====================================================================== *)

Section WrapperRuns.

Context {Args : Type}.
Implicit Types (func : Args → M pyval) (args : Args) (w : world).

(** The endpoint wrapper of the product service: the outcome of [func],
    and the world [func] left with one increment and one observation
    applied to it. *)
Lemma product_endpoint_run e func args w :
  ProductService.track_endpoint_metrics e func args w =
  ((func args w).1,
   with_reg (func args w).2
     (reg_observe ProductService.http_request_duration_seconds ["GET"; e]
        (clock (func args w).2 - clock w)
        (reg_inc ("http_requests_total",
                  ["GET"; e; pretty (recorded_status (func args w).1)]) 1
                 (reg (func args w).2)))).
Proof.
  unfold ProductService.track_endpoint_metrics.
  destruct (func args w) as [res w1]. reflexivity.
Qed.

Lemma user_endpoint_run e func args w :
  UserService.track_endpoint_metrics e func args w =
  ((func args w).1,
   with_reg (func args w).2
     (reg_observe UserService.http_request_duration_seconds ["POST"; e]
        (clock (func args w).2 - clock w)
        (reg_inc ("http_requests_total",
                  ["POST"; e; pretty (recorded_status (func args w).1)]) 1
                 (reg (func args w).2)))).
Proof.
  unfold UserService.track_endpoint_metrics.
  destruct (func args w) as [res w1]. reflexivity.
Qed.

Lemma database_query_run operation table func args w :
  ProductService.track_database_query operation table func args w =
  ((func args w).1,
   with_reg (func args w).2
     (reg_observe ProductService.database_query_duration_seconds
        [operation; table] (clock (func args w).2 - clock w)
        (reg (func args w).2))).
Proof.
  unfold ProductService.track_database_query, try_finally.
  unfold mbind, M_bind, bind.
  destruct (func args w) as [[v|ex] w1]; reflexivity.
Qed.

Lemma auth_operation_run operation func args w :
  UserService.track_auth_operation operation func args w =
  ((func args w).1,
   with_reg (func args w).2
     (reg_observe UserService.auth_operation_duration_seconds
        [operation] (clock (func args w).2 - clock w)
        (reg (func args w).2))).
Proof.
  unfold UserService.track_auth_operation, try_finally.
  unfold mbind, M_bind, bind.
  destruct (func args w) as [[v|ex] w1]; reflexivity.
Qed.

Lemma cache_operation_run operation key_type func args w :
  ProductService.track_cache_operation operation key_type func args w =
  ((func args w).1,
   with_reg (func args w).2
     (reg_observe ProductService.redis_operation_duration_seconds
        [operation] (clock (func args w).2 - clock w)
        (reg_inc ("redis_operations_total", [operation]) 1
           (cache_body_reg operation key_type (func args w).1
              (reg (func args w).2))))).
Proof.
  unfold ProductService.track_cache_operation, try_finally, cache_body_reg.
  unfold mbind, M_bind, bind.
  destruct (func args w) as [[v|ex] w1]; [|reflexivity].
  cbn [fst snd].
  destruct (decide (operation = "get")); [|reflexivity].
  destruct (is_not_None v); reflexivity.
Qed.

End WrapperRuns.

(* ====================================================================== *)
(** ** Sums of counter instances *)
(* ====================================================================== *)

Section Sums.

Variable P : instance_key → bool.

Let f : instance_key → Q → Q → Q := λ k v acc, if P k then v + acc else acc.

Lemma sum_step_proper k v : Proper (Qeq ==> Qeq) (f k v).
Proof. intros x y Hxy. unfold f. destruct (P k); [by rewrite Hxy|done]. Qed.

Lemma sum_step_comm j1 j2 z1 z2 y : f j1 z1 (f j2 z2 y) == f j2 z2 (f j1 z1 y).
Proof. unfold f. destruct (P j1), (P j2); try reflexivity; ring. Qed.

Lemma counter_sum_empty : counter_sum P ∅ = 0.
Proof. unfold counter_sum. apply map_fold_empty. Qed.

Lemma counter_sum_insert_fresh (cs : gmap instance_key Q) k v :
  cs !! k = None →
  counter_sum P (<[k := v]> cs)
  == (if P k then v + counter_sum P cs else counter_sum P cs).
Proof.
  intros Hk. unfold counter_sum.
  apply (map_fold_insert Qeq f 0 k v cs); [apply sum_step_proper| |done].
  intros. apply sum_step_comm.
Qed.

Lemma counter_sum_delete (cs : gmap instance_key Q) k v :
  cs !! k = Some v →
  counter_sum P cs
  == (if P k then v + counter_sum P (delete k cs)
      else counter_sum P (delete k cs)).
Proof.
  intros Hk. unfold counter_sum.
  apply (map_fold_delete Qeq f 0 k v cs); [apply sum_step_proper| |done].
  intros. apply sum_step_comm.
Qed.

(** Raising one instance by [a] raises the sum by [a] when the instance is
    selected, and leaves it alone otherwise. *)
Lemma counter_sum_bump (cs : gmap instance_key Q) k a :
  counter_sum P (<[k := default 0 (cs !! k) + a]> cs)
  == counter_sum P cs + (if P k then a else 0).
Proof.
  destruct (cs !! k) as [v|] eqn:Hk; simpl.
  - rewrite <- insert_delete_eq.
    rewrite counter_sum_insert_fresh by apply lookup_delete_eq.
    rewrite (counter_sum_delete cs k v Hk).
    destruct (P k); ring.
  - rewrite counter_sum_insert_fresh by done.
    destruct (P k); ring.
Qed.

End Sums.

Section Linked.

Variables (c : Counter) (h : Histogram).
Implicit Types (r : registry) (w : world).

Lemma linked_empty : linked c h empty_registry.
Proof.
  intros m e. unfold hist_count, requests_sum. cbn.
  by rewrite lookup_empty, counter_sum_empty.
Qed.

Lemma requests_sum_inc k m e r :
  requests_sum c m e (reg_inc k 1 r)
  == requests_sum c m e r + (if is_request_key (c_name c) m e k then 1 else 0).
Proof.
  unfold requests_sum. rewrite (reg_inc_counters k 1 r Q01).
  apply counter_sum_bump.
Qed.

Lemma is_request_key_own m e s m' e' :
  is_request_key (c_name c) m' e' (c_name c, [m; e; s])
  = bool_decide ((m, e) = (m', e')).
Proof.
  unfold is_request_key.
  rewrite (bool_decide_eq_true_2 _ (eq_refl (c_name c))). cbn.
  rewrite <- bool_decide_and. apply bool_decide_ext.
  split; [intros [-> ->]; done | intros [= -> ->]; done].
Qed.

Lemma hist_count_observe lv v r k :
  hist_count (reg_observe h lv v r) k
  = if decide (k = (h_name h, lv)) then hist_count r k + 1 else hist_count r k.
Proof.
  destruct (reg_observe_observed_once h lv v r) as [Hat Hne].
  case_decide as Hk; [by subst k|].
  unfold hist_count. by rewrite (Hne k Hk).
Qed.

(** One increment of the request counter together with one observation of
    the duration histogram, under the same method and endpoint, keep the two
    metrics in agreement. *)
Lemma linked_step m e s v r :
  linked c h r →
  linked c h (reg_observe h [m; e] v (reg_inc (c_name c, [m; e; s]) 1 r)).
Proof.
  intros Hl m' e'.
  rewrite hist_count_observe.
  unfold requests_sum. cbn [reg_observe counters].
  fold (requests_sum c m' e' (reg_inc (c_name c, [m; e; s]) 1 r)).
  rewrite requests_sum_inc, is_request_key_own.
  unfold hist_count at 1 2. rewrite reg_inc_histograms.
  fold (hist_count r (h_name h, [m'; e'])).
  destruct (decide ((m, e) = (m', e'))) as [Heq|Hne].
  - rewrite bool_decide_eq_true_2 by done.
    rewrite decide_True by congruence. by rewrite (Hl m' e').
  - rewrite bool_decide_eq_false_2 by done.
    rewrite decide_False by congruence.
    rewrite (Hl m' e'). ring.
Qed.

(** An increment of a counter with another name does not disturb them. *)
Lemma linked_inc_other k r :
  k.1 ≠ c_name c → linked c h r → linked c h (reg_inc k 1 r).
Proof.
  intros Hk Hl m e.
  rewrite requests_sum_inc.
  unfold hist_count. rewrite reg_inc_histograms.
  fold (hist_count r (h_name h, [m; e])). rewrite (Hl m e).
  destruct k as [n lv]. cbn in Hk.
  assert (is_request_key (c_name c) m e (n, lv) = false) as ->.
  { unfold is_request_key. destruct lv as [|? [|? [|? [|]]]]; try done.
    by rewrite (bool_decide_eq_false_2 (n = c_name c)). }
  ring.
Qed.

End Linked.

(* ====================================================================== *)
(** ** Counters only go up *)
(* ====================================================================== *)

Section Monotone.

Implicit Types (r : registry) (k : instance_key) (w : world).

Lemma counters_le_refl r : counters_le r r.
Proof. intros k. apply Qle_refl. Qed.

Lemma counters_le_trans r1 r2 r3 :
  counters_le r1 r2 → counters_le r2 r3 → counters_le r1 r3.
Proof. intros H12 H23 k. eapply Qle_trans; [apply H12|apply H23]. Qed.

Lemma counters_le_same r1 r2 : counters r2 = counters r1 → counters_le r1 r2.
Proof. intros Heq k. unfold counter_value. rewrite Heq. apply Qle_refl. Qed.

Lemma counter_increment_nonneg k a r :
  0 <= a →
  counter_increment k a r =
  (Returned (),
   {| counters := <[k := counter_value r k + a]> (counters r);
      gauges := gauges r; histograms := histograms r |}).
Proof.
  intros Ha. unfold counter_increment.
  destruct (Qlt_le_dec a 0) as [Hlt|_]; [|done].
  exfalso. apply (Qlt_not_le _ _ Hlt Ha).
Qed.

Lemma counter_increment_negative k a r :
  a < 0 → counter_increment k a r = (Raised NegativeIncrementError, r).
Proof.
  intros Ha. unfold counter_increment.
  destruct (Qlt_le_dec a 0) as [_|Hle]; [done|].
  exfalso. apply (Qlt_not_le _ _ Ha Hle).
Qed.

Lemma counters_le_increment k a r :
  0 <= a → counters_le r (counter_increment k a r).2.
Proof.
  intros Ha k'. rewrite (counter_increment_nonneg k a r Ha). cbn.
  unfold counter_value at 2. cbn.
  destruct (decide (k = k')) as [->|Hne].
  - rewrite lookup_insert_eq. cbn. lra.
  - rewrite lookup_insert_ne by done. apply Qle_refl.
Qed.

Lemma counters_le_getOrCreate k r : counters_le r (counter_getOrCreate k r).
Proof. intros k'. rewrite counter_getOrCreate_value. apply Qle_refl. Qed.

Lemma counters_le_reg_inc k r : counters_le r (reg_inc k 1 r).
Proof.
  unfold reg_inc. eapply counters_le_trans; [apply counters_le_getOrCreate|].
  apply counters_le_increment, Q01.
Qed.

Lemma monotone_ret {A} (a : A) : monotone (mret a).
Proof. intros w. apply counters_le_refl. Qed.

Lemma monotone_raise {A} e : monotone (@raise A e).
Proof. intros w. apply counters_le_refl. Qed.

Lemma monotone_bind {A B} (c : M A) (k : A → M B) :
  monotone c → (∀ a, monotone (k a)) → monotone (c ≫= k).
Proof.
  intros Hc Hk w. unfold mbind, M_bind, bind.
  specialize (Hc w). destruct (c w) as [[a|e] w1]; cbn in *; [|done].
  eapply counters_le_trans; [apply Hc|apply Hk].
Qed.

Lemma monotone_inc (c : Counter) kwargs : monotone (inc c kwargs 1).
Proof.
  intros w. unfold inc.
  destruct (labels (c_labelnames c) kwargs) as [lv|e]; cbn;
    [|apply counters_le_refl].
  pose proof (counters_le_reg_inc (c_name c, lv) (reg w)) as Hle.
  unfold reg_inc in Hle.
  destruct (counter_increment _ _ _) as [o r']. exact Hle.
Qed.

Lemma monotone_set (g : Gauge) kwargs v : monotone (set g kwargs v).
Proof.
  intros w. unfold set.
  destruct (labels (g_labelnames g) kwargs) as [lv|e]; cbn;
    by apply counters_le_same.
Qed.

Lemma monotone_observe (h : Histogram) kwargs v : monotone (observe h kwargs v).
Proof.
  intros w. unfold observe.
  destruct (labels (h_labelnames h) kwargs) as [lv|e]; cbn;
    by apply counters_le_same.
Qed.

Lemma monotone_generate_latest catalog : monotone (generate_latest catalog).
Proof. intros w. apply counters_le_refl. Qed.

Lemma monotone_returns_None (c : M ()) : monotone c → monotone (returns_None c).
Proof. intros Hc. apply monotone_bind; [done|]. intros _. apply monotone_ret. Qed.

Lemma monotone_try_finally {A} (body : M A) (fin : M ()) :
  monotone body → monotone fin → monotone (try_finally body fin).
Proof.
  intros Hb Hf w. unfold try_finally, finally_.
  specialize (Hb w). destruct (body w) as [res w1]. cbn in Hb.
  specialize (Hf w1). destruct (fin w1) as [[u|e] w2]; cbn in *;
    eapply counters_le_trans; eauto.
Qed.

Lemma with_reg_reg w r : reg (with_reg w r) = r.
Proof. done. Qed.

End Monotone.

(* ====================================================================== *)
(** ** Transparency of the decorators *)
(* ====================================================================== *)

(** C1: every decorator (HTTP endpoint, database query, cache operation,
    and the authentication one of the user service) hands its caller exactly
    the outcome of the wrapped coroutine: the value it returned, or the
    exception it raised. *)
Theorem wrappers_transparent {Args : Type} (func : Args → M pyval)
    (args : Args) (w : world) :
  (∀ e, (ProductService.track_endpoint_metrics e func args w).1
        = (func args w).1) ∧
  (∀ op tbl, (ProductService.track_database_query op tbl func args w).1
             = (func args w).1) ∧
  (∀ op kt, (ProductService.track_cache_operation op kt func args w).1
            = (func args w).1) ∧
  (∀ e, (UserService.track_endpoint_metrics e func args w).1
        = (func args w).1) ∧
  (∀ op, (UserService.track_auth_operation op func args w).1
         = (func args w).1).
Proof.
  repeat split; intros.
  - by rewrite product_endpoint_run.
  - by rewrite database_query_run.
  - by rewrite cache_operation_run.
  - by rewrite user_endpoint_run.
  - by rewrite auth_operation_run.
Qed.

(* ====================================================================== *)
(** ** The [finally] clause *)
(* ====================================================================== *)

Section FinallyOnce.

Context {Args : Type}.
Implicit Types (func : Args → M pyval) (args : Args) (w : world).

Lemma product_endpoint_updates e func args w :
  let r1 := reg (func args w).2 in
  let r2 := reg (ProductService.track_endpoint_metrics e func args w).2 in
  incremented_once ProductService.http_requests_total
    ["GET"; e; pretty (recorded_status (func args w).1)] r1 r2 ∧
  observed_once ProductService.http_request_duration_seconds ["GET"; e] r1 r2 ∧
  gauges r2 = gauges r1.
Proof.
  cbn zeta. rewrite product_endpoint_run. cbn [snd reg with_reg].
  set (k := ("http_requests_total",
             ["GET"; e; pretty (recorded_status (func args w).1)])).
  set (r1 := reg (func args w).2).
  split; [|split].
  - apply (reg_inc_incremented_once ProductService.http_requests_total).
  - destruct (reg_observe_observed_once
                ProductService.http_request_duration_seconds ["GET"; e]
                (clock (func args w).2 - clock w) (reg_inc k 1 r1)) as [Hc Ho].
    split.
    + rewrite Hc. unfold hist_count. by rewrite reg_inc_histograms.
    + intros k' Hk'. rewrite (Ho k' Hk'). by rewrite reg_inc_histograms.
  - cbn. apply reg_inc_gauges.
Qed.

Lemma user_endpoint_updates e func args w :
  let r1 := reg (func args w).2 in
  let r2 := reg (UserService.track_endpoint_metrics e func args w).2 in
  incremented_once UserService.http_requests_total
    ["POST"; e; pretty (recorded_status (func args w).1)] r1 r2 ∧
  observed_once UserService.http_request_duration_seconds ["POST"; e] r1 r2 ∧
  gauges r2 = gauges r1.
Proof.
  cbn zeta. rewrite user_endpoint_run. cbn [snd reg with_reg].
  set (k := ("http_requests_total",
             ["POST"; e; pretty (recorded_status (func args w).1)])).
  set (r1 := reg (func args w).2).
  split; [|split].
  - apply (reg_inc_incremented_once UserService.http_requests_total).
  - destruct (reg_observe_observed_once
                UserService.http_request_duration_seconds ["POST"; e]
                (clock (func args w).2 - clock w) (reg_inc k 1 r1)) as [Hc Ho].
    split.
    + rewrite Hc. unfold hist_count. by rewrite reg_inc_histograms.
    + intros k' Hk'. rewrite (Ho k' Hk'). by rewrite reg_inc_histograms.
  - cbn. apply reg_inc_gauges.
Qed.

Lemma database_query_updates op tbl func args w :
  let r1 := reg (func args w).2 in
  let r2 := reg (ProductService.track_database_query op tbl func args w).2 in
  observed_once ProductService.database_query_duration_seconds [op; tbl] r1 r2 ∧
  counters r2 = counters r1 ∧ gauges r2 = gauges r1.
Proof.
  cbn zeta. rewrite database_query_run. cbn [snd reg with_reg].
  split; [apply reg_observe_observed_once|done].
Qed.

Lemma auth_operation_updates op func args w :
  let r1 := reg (func args w).2 in
  let r2 := reg (UserService.track_auth_operation op func args w).2 in
  observed_once UserService.auth_operation_duration_seconds [op] r1 r2 ∧
  counters r2 = counters r1 ∧ gauges r2 = gauges r1.
Proof.
  cbn zeta. rewrite auth_operation_run. cbn [snd reg with_reg].
  split; [apply reg_observe_observed_once|done].
Qed.

Lemma cache_body_reg_histograms op kt res r :
  histograms (cache_body_reg op kt res r) = histograms r.
Proof.
  unfold cache_body_reg. destruct res as [v|]; [|done].
  destruct (decide (op = "get")); [|done].
  destruct (is_not_None v); apply reg_inc_histograms.
Qed.

Lemma cache_body_reg_gauges op kt res r :
  gauges (cache_body_reg op kt res r) = gauges r.
Proof.
  unfold cache_body_reg. destruct res as [v|]; [|done].
  destruct (decide (op = "get")); [|done].
  destruct (is_not_None v); apply reg_inc_gauges.
Qed.

Lemma cache_operation_updates op kt func args w :
  let r1 := reg (func args w).2 in
  let rb := cache_body_reg op kt (func args w).1 r1 in
  let r2 := reg (ProductService.track_cache_operation op kt func args w).2 in
  incremented_once ProductService.redis_operations_total [op] rb r2 ∧
  observed_once ProductService.redis_operation_duration_seconds [op] r1 r2 ∧
  gauges r2 = gauges r1.
Proof.
  cbn zeta. rewrite cache_operation_run. cbn [snd reg with_reg].
  set (r1 := reg (func args w).2).
  set (rb := cache_body_reg op kt (func args w).1 r1).
  split; [|split].
  - apply (reg_inc_incremented_once ProductService.redis_operations_total).
  - destruct (reg_observe_observed_once
                ProductService.redis_operation_duration_seconds [op]
                (clock (func args w).2 - clock w)
                (reg_inc ("redis_operations_total", [op]) 1 rb)) as [Hc Ho].
    split.
    + rewrite Hc. unfold hist_count, rb.
      by rewrite reg_inc_histograms, cache_body_reg_histograms.
    + intros k' Hk'. rewrite (Ho k' Hk'). unfold rb.
      by rewrite reg_inc_histograms, cache_body_reg_histograms.
  - cbn. unfold rb. by rewrite reg_inc_gauges, cache_body_reg_gauges.
Qed.

End FinallyOnce.

(** C3: whatever the outcome of the wrapped coroutine, the world the caller
    receives together with that outcome is the world the coroutine left with
    the updates of the [finally] clause applied exactly once: one
    observation of the duration histogram and, for the HTTP wrappers, one
    increment of the request counter; nothing else changes.  The outcome,
    be it a raised exception, arrives with these updates already made. *)
Theorem finally_updates_once {Args : Type} (func : Args → M pyval)
    (args : Args) (w : world) :
  let res := (func args w).1 in
  let r1 := reg (func args w).2 in
  (∀ e,
     let out := ProductService.track_endpoint_metrics e func args w in
     out.1 = res ∧
     incremented_once ProductService.http_requests_total
       ["GET"; e; pretty (recorded_status res)] r1 (reg out.2) ∧
     observed_once ProductService.http_request_duration_seconds
       ["GET"; e] r1 (reg out.2) ∧
     gauges (reg out.2) = gauges r1) ∧
  (∀ e,
     let out := UserService.track_endpoint_metrics e func args w in
     out.1 = res ∧
     incremented_once UserService.http_requests_total
       ["POST"; e; pretty (recorded_status res)] r1 (reg out.2) ∧
     observed_once UserService.http_request_duration_seconds
       ["POST"; e] r1 (reg out.2) ∧
     gauges (reg out.2) = gauges r1) ∧
  (∀ op tbl,
     let out := ProductService.track_database_query op tbl func args w in
     out.1 = res ∧
     observed_once ProductService.database_query_duration_seconds
       [op; tbl] r1 (reg out.2) ∧
     counters (reg out.2) = counters r1 ∧ gauges (reg out.2) = gauges r1) ∧
  (∀ op,
     let out := UserService.track_auth_operation op func args w in
     out.1 = res ∧
     observed_once UserService.auth_operation_duration_seconds
       [op] r1 (reg out.2) ∧
     counters (reg out.2) = counters r1 ∧ gauges (reg out.2) = gauges r1) ∧
  (∀ op kt,
     let out := ProductService.track_cache_operation op kt func args w in
     out.1 = res ∧
     incremented_once ProductService.redis_operations_total [op]
       (cache_body_reg op kt res r1) (reg out.2) ∧
     observed_once ProductService.redis_operation_duration_seconds
       [op] r1 (reg out.2) ∧
     gauges (reg out.2) = gauges r1).
Proof.
  cbn zeta. split; [|split; [|split; [|split]]]; intros.
  - split; [by rewrite product_endpoint_run|apply product_endpoint_updates].
  - split; [by rewrite user_endpoint_run|apply user_endpoint_updates].
  - split; [by rewrite database_query_run|apply database_query_updates].
  - split; [by rewrite auth_operation_run|apply auth_operation_updates].
  - split; [by rewrite cache_operation_run|apply cache_operation_updates].
Qed.

(* ====================================================================== *)
(** ** The method label *)
(* ====================================================================== *)

(** C2: [search_products] is registered for POST, and handling a search
    request through its decorated endpoint counts and times the request
    under the method label GET; nothing is recorded under POST. *)
Theorem search_products_labelled_GET :
  let rt := ProductMain.search_products_route in
  let out := ProductMain.endpoint rt (ProductMain.mkProductSearch "laptop" None) w0 in
  ProductMain.route_method rt = "POST" ∧
  is_Returned out.1 = true ∧
  counter_value (reg out.2)
    ("http_requests_total", ["GET"; "search_products"; "200"]) = 1 ∧
  counter_value (reg out.2)
    ("http_requests_total", ["POST"; "search_products"; "200"]) = 0 ∧
  hist_count (reg out.2)
    ("http_request_duration_seconds", ["GET"; "search_products"]) = 1 ∧
  hist_count (reg out.2)
    ("http_request_duration_seconds", ["POST"; "search_products"]) = 0.
Proof. cbn zeta. repeat split; vm_compute; reflexivity. Qed.

(* ====================================================================== *)
(** ** The status label *)
(* ====================================================================== *)

Lemma status_classified_recorded res sc :
  status_classified res sc → recorded_status res = sc.
Proof.
  intros H. destruct H as [sc body|v Hv|e He]; cbn.
  - done.
  - by rewrite Hv.
  - by rewrite He.
Qed.

(** C4, as stated, fails: a handler that is cancelled raises
    [CancelledError], which [except Exception] does not catch, and the
    request is counted with status 200, not 500. *)
Lemma cancelled_request_counted_200 :
  let out := ProductService.track_endpoint_metrics "get_product"
               cancelled_handler () w0 in
  (cancelled_handler () w0).1 = Raised CancelledError ∧
  out.1 = Raised CancelledError ∧
  ¬ incremented_once ProductService.http_requests_total
      ["GET"; "get_product"; "500"] (reg (cancelled_handler () w0).2) (reg out.2) ∧
  incremented_once ProductService.http_requests_total
      ["GET"; "get_product"; "200"] (reg (cancelled_handler () w0).2) (reg out.2).
Proof.
  cbn zeta. split; [reflexivity|]. split; [reflexivity|]. split.
  - intros [H _]. vm_compute in H. discriminate H.
  - pose proof (product_endpoint_updates "get_product" cancelled_handler () w0)
      as [H _]. exact H.
Qed.

(** C4 (amended): the request counter is incremented under the status label
    that the outcome is classified with: the response's status code when the
    response exposes one, 200 when it returns without one, and 500 when it
    raises an exception that derives from [Exception]. *)
Theorem status_label_classified {Args : Type} (func : Args → M pyval)
    (args : Args) (w : world) (e : string) (sc : Z) :
  status_classified (func args w).1 sc →
  incremented_once ProductService.http_requests_total ["GET"; e; pretty sc]
    (reg (func args w).2)
    (reg (ProductService.track_endpoint_metrics e func args w).2) ∧
  incremented_once UserService.http_requests_total ["POST"; e; pretty sc]
    (reg (func args w).2)
    (reg (UserService.track_endpoint_metrics e func args w).2).
Proof.
  intros Hsc. apply status_classified_recorded in Hsc. split.
  - pose proof (product_endpoint_updates e func args w) as [H _].
    by rewrite Hsc in H.
  - pose proof (user_endpoint_updates e func args w) as [H _].
    by rewrite Hsc in H.
Qed.

Lemma status_label_classified_witness :
  (status_classified (created_handler () w0).1 201 ∧
   incremented_once ProductService.http_requests_total
     ["GET"; "create_product"; "201"] (reg (created_handler () w0).2)
     (reg (ProductService.track_endpoint_metrics "create_product"
             created_handler () w0).2)) ∧
  (status_classified (ProductMain.get_product_body "prod-1" w0).1 200 ∧
   incremented_once ProductService.http_requests_total
     ["GET"; "get_product"; "200"]
     (reg (ProductMain.get_product_body "prod-1" w0).2)
     (reg (ProductMain.get_product "prod-1" w0).2)) ∧
  (status_classified (ProductMain.get_product_from_db_body "prod-1" w0).1 500 ∧
   incremented_once UserService.http_requests_total
     ["POST"; "login"; "500"]
     (reg (ProductMain.get_product_from_db_body "prod-1" w0).2)
     (reg (UserService.track_endpoint_metrics "login"
             ProductMain.get_product_from_db_body "prod-1" w0).2)).
Proof.
  assert (H1 : status_classified (created_handler () w0).1 201)
    by apply SC_exposed.
  assert (H2 : status_classified (ProductMain.get_product_body "prod-1" w0).1 200)
    by (apply SC_default; reflexivity).
  assert (H3 : status_classified
                 (ProductMain.get_product_from_db_body "prod-1" w0).1 500)
    by (apply SC_failure; reflexivity).
  split; [|split].
  - split; [exact H1|].
    apply (status_label_classified created_handler () w0 "create_product" 201 H1).
  - split; [exact H2|].
    apply (status_label_classified ProductMain.get_product_body "prod-1" w0
             "get_product" 200 H2).
  - split; [exact H3|].
    apply (status_label_classified ProductMain.get_product_from_db_body
             "prod-1" w0 "login" 500 H3).
Defined.

(* ====================================================================== *)
(** ** Cache hits and misses *)
(* ====================================================================== *)

Section Cache.

Context {Args : Type}.
Implicit Types (func : Args → M pyval) (args : Args) (w : world).

Lemma reg_inc_other_name k n lv r :
  k.1 ≠ n → counters (reg_inc k 1 r) !! (n, lv) = counters r !! (n, lv).
Proof.
  intros Hk. apply reg_inc_lookup_ne. intros Heq. subst k. by apply Hk.
Qed.

Lemma cache_counters op kt func args w :
  counters (reg (ProductService.track_cache_operation op kt func args w).2)
  = counters (reg_inc ("redis_operations_total", [op]) 1
                (cache_body_reg op kt (func args w).1 (reg (func args w).2))).
Proof. by rewrite cache_operation_run. Qed.

Lemma cache_get_hit kt func args w result :
  (func args w).1 = Returned result → is_not_None result = true →
  let r1 := reg (func args w).2 in
  let r2 := reg (ProductService.track_cache_operation "get" kt func args w).2 in
  instance_incremented ProductService.redis_cache_hits_total [kt] r1 r2 ∧
  counter_untouched ProductService.redis_cache_misses_total r1 r2.
Proof.
  intros Hres Hnn. cbn zeta.
  pose proof (cache_counters "get" kt func args w) as Hc.
  rewrite Hres in Hc. cbn [cache_body_reg] in Hc.
  rewrite decide_True, Hnn in Hc by done.
  set (r1 := reg (func args w).2) in *.
  split; [split|].
  - unfold counted_once, counter_value at 1. rewrite Hc.
    rewrite reg_inc_other_name by done.
    fold (counter_value (reg_inc ("redis_cache_hits_total", [kt]) 1 r1)
            ("redis_cache_hits_total", [kt])).
    apply reg_inc_value_eq.
  - intros lv' Hlv. rewrite Hc, reg_inc_other_name by done.
    apply reg_inc_lookup_ne. congruence.
  - intros lv. rewrite Hc. by rewrite !reg_inc_other_name.
Qed.

Lemma cache_get_miss kt func args w :
  (func args w).1 = Returned PyNone →
  let r1 := reg (func args w).2 in
  let r2 := reg (ProductService.track_cache_operation "get" kt func args w).2 in
  instance_incremented ProductService.redis_cache_misses_total [kt] r1 r2 ∧
  counter_untouched ProductService.redis_cache_hits_total r1 r2.
Proof.
  intros Hres. cbn zeta.
  pose proof (cache_counters "get" kt func args w) as Hc.
  rewrite Hres in Hc. cbn [cache_body_reg is_not_None] in Hc.
  rewrite decide_True in Hc by done.
  set (r1 := reg (func args w).2) in *.
  split; [split|].
  - unfold counted_once, counter_value at 1. rewrite Hc.
    rewrite reg_inc_other_name by done.
    fold (counter_value (reg_inc ("redis_cache_misses_total", [kt]) 1 r1)
            ("redis_cache_misses_total", [kt])).
    apply reg_inc_value_eq.
  - intros lv' Hlv. rewrite Hc, reg_inc_other_name by done.
    apply reg_inc_lookup_ne. congruence.
  - intros lv. rewrite Hc. by rewrite !reg_inc_other_name.
Qed.

Lemma cache_other_operation op kt func args w :
  op ≠ "get" →
  let r1 := reg (func args w).2 in
  let r2 := reg (ProductService.track_cache_operation op kt func args w).2 in
  counter_untouched ProductService.redis_cache_hits_total r1 r2 ∧
  counter_untouched ProductService.redis_cache_misses_total r1 r2.
Proof.
  intros Hop. cbn zeta.
  pose proof (cache_counters op kt func args w) as Hc.
  assert (cache_body_reg op kt (func args w).1 (reg (func args w).2)
          = reg (func args w).2) as Hb.
  { unfold cache_body_reg. destruct (func args w).1; [|done].
    by rewrite decide_False. }
  rewrite Hb in Hc.
  split; intros lv; rewrite Hc; by rewrite reg_inc_other_name.
Qed.

Lemma cache_body_reg_operations op kt res r lv :
  counters (cache_body_reg op kt res r) !! ("redis_operations_total", lv)
  = counters r !! ("redis_operations_total", lv).
Proof.
  unfold cache_body_reg. destruct res as [v|]; [|done].
  destruct (decide (op = "get")); [|done].
  destruct (is_not_None v); by rewrite reg_inc_other_name.
Qed.

Lemma cache_operation_recorded op kt func args w :
  let r1 := reg (func args w).2 in
  let r2 := reg (ProductService.track_cache_operation op kt func args w).2 in
  counted_once ProductService.redis_operations_total [op] r1 r2 ∧
  observed_once ProductService.redis_operation_duration_seconds [op] r1 r2.
Proof.
  cbn zeta.
  destruct (cache_operation_updates op kt func args w) as ([Hi _] & Ho & _).
  split; [|exact Ho].
  unfold counted_once. rewrite Hi. unfold counter_value. cbn [c_name
    ProductService.redis_operations_total].
  by rewrite cache_body_reg_operations.
Qed.

End Cache.

(** C5: for a cache-wrapped call that returns, a [get] with a non-None
    result raises the hit counter of the key type by one and leaves the miss
    counter alone; a [get] returning None raises the miss counter by one and
    leaves the hit counter alone; any other operation touches neither.  In
    every case the operation counter goes up by one and the duration is
    observed once. *)
Theorem cache_hit_miss_accounting {Args : Type} (func : Args → M pyval)
    (args : Args) (w : world) (op kt : string) (result : pyval) :
  (func args w).1 = Returned result →
  let r1 := reg (func args w).2 in
  let r2 := reg (ProductService.track_cache_operation op kt func args w).2 in
  (op = "get" ∧ is_not_None result = true →
   instance_incremented ProductService.redis_cache_hits_total [kt] r1 r2 ∧
   counter_untouched ProductService.redis_cache_misses_total r1 r2) ∧
  (op = "get" ∧ result = PyNone →
   instance_incremented ProductService.redis_cache_misses_total [kt] r1 r2 ∧
   counter_untouched ProductService.redis_cache_hits_total r1 r2) ∧
  (op ≠ "get" →
   counter_untouched ProductService.redis_cache_hits_total r1 r2 ∧
   counter_untouched ProductService.redis_cache_misses_total r1 r2) ∧
  counted_once ProductService.redis_operations_total [op] r1 r2 ∧
  observed_once ProductService.redis_operation_duration_seconds [op] r1 r2.
Proof.
  intros Hres. cbn zeta. split; [|split; [|split]].
  - intros [-> Hnn]. by apply (cache_get_hit kt func args w result).
  - intros [-> ->]. by apply cache_get_miss.
  - intros Hop. by apply cache_other_operation.
  - apply cache_operation_recorded.
Qed.

Lemma cache_hit_miss_accounting_witness :
  ((ProductMain.get_product_from_cache_body "prod-1" w0).1 = Returned PyNone ∧
   instance_incremented ProductService.redis_cache_misses_total ["product"]
     (reg (ProductMain.get_product_from_cache_body "prod-1" w0).2)
     (reg (ProductMain.get_product_from_cache "prod-1" w0).2)) ∧
  ((cached_product "prod-1" w0).1 = Returned (PyDict [("id", PyStr "prod-1")]) ∧
   instance_incremented ProductService.redis_cache_hits_total ["product"]
     (reg (cached_product "prod-1" w0).2)
     (reg (ProductService.track_cache_operation "get" "product"
             cached_product "prod-1" w0).2)) ∧
  ((cache_store "prod-1" w0).1 = Returned (PyBool true) ∧
   counter_untouched ProductService.redis_cache_hits_total
     (reg (cache_store "prod-1" w0).2)
     (reg (ProductService.track_cache_operation "set" "product"
             cache_store "prod-1" w0).2)).
Proof.
  split; [|split].
  - split; [reflexivity|].
    pose proof (cache_hit_miss_accounting
                  ProductMain.get_product_from_cache_body "prod-1" w0
                  "get" "product" PyNone eq_refl) as (_ & Hmiss & _).
    apply Hmiss. split; reflexivity.
  - split; [reflexivity|].
    pose proof (cache_hit_miss_accounting cached_product "prod-1" w0
                  "get" "product" (PyDict [("id", PyStr "prod-1")]) eq_refl)
      as (Hhit & _).
    apply Hhit. split; reflexivity.
  - split; [reflexivity|].
    pose proof (cache_hit_miss_accounting cache_store "prod-1" w0
                  "set" "product" (PyBool true) eq_refl)
      as (_ & _ & Hother & _).
    apply Hother. discriminate.
Defined.

(** C10: a cache-wrapped [get] that returns a value which is not None but
    is falsy (an empty string, an empty list, zero) counts as a hit: the hit
    counter of the key type goes up by one and the miss counter does not
    move. *)
Theorem falsy_value_is_a_hit {Args : Type} (func : Args → M pyval)
    (args : Args) (w : world) (kt : string) (result : pyval) :
  (func args w).1 = Returned result →
  is_not_None result = true → truthy result = false →
  let r1 := reg (func args w).2 in
  let r2 := reg (ProductService.track_cache_operation "get" kt func args w).2 in
  instance_incremented ProductService.redis_cache_hits_total [kt] r1 r2 ∧
  counter_untouched ProductService.redis_cache_misses_total r1 r2.
Proof. intros Hres Hnn _. by apply (cache_get_hit kt func args w result). Qed.

Lemma falsy_value_is_a_hit_witness :
  (truthy (PyStr EmptyString) = false ∧
   counted_once ProductService.redis_cache_hits_total ["product"]
     (reg (cached_empty_string "prod-1" w0).2)
     (reg (ProductService.track_cache_operation "get" "product"
             cached_empty_string "prod-1" w0).2)) ∧
  (truthy (PyList []) = false ∧
   counted_once ProductService.redis_cache_hits_total ["product"]
     (reg (cached_empty_list "prod-1" w0).2)
     (reg (ProductService.track_cache_operation "get" "product"
             cached_empty_list "prod-1" w0).2)) ∧
  (truthy (PyInt 0) = false ∧
   counter_untouched ProductService.redis_cache_misses_total
     (reg (cached_zero "prod-1" w0).2)
     (reg (ProductService.track_cache_operation "get" "product"
             cached_zero "prod-1" w0).2)).
Proof.
  split; [|split]; (split; [reflexivity|]).
  - apply (falsy_value_is_a_hit cached_empty_string "prod-1" w0 "product"
             (PyStr EmptyString) eq_refl eq_refl eq_refl).
  - apply (falsy_value_is_a_hit cached_empty_list "prod-1" w0 "product"
             (PyList []) eq_refl eq_refl eq_refl).
  - apply (falsy_value_is_a_hit cached_zero "prod-1" w0 "product"
             (PyInt 0) eq_refl eq_refl eq_refl).
Defined.

(* ====================================================================== *)
(** ** Histogram observations *)
(* ====================================================================== *)

Lemma le_bound_ge v b : le_bound v b = true ↔ bound_ge b v.
Proof. destruct b as [q|]; cbn; [apply Qle_bool_iff|done]. Qed.

Lemma observe_bucket_lookup v (bs : list (bound * Q)) i b n :
  bs !! i = Some (b, n) →
  (observe_bucket v <$> bs) !! i
  = Some (if le_bound v b then (b, n + 1) else (b, n)).
Proof. intros Hi. rewrite list_lookup_fmap, Hi. done. Qed.

(** C6: [observe(v)] raises [count] by one, adds [v] to [sum], raises by
    one every cumulative bucket whose upper bound is [>= v] and leaves the
    smaller buckets as they were; [h.labels(...).observe(v)] applies this to
    the labelled instance.  Observing 2, 7 and 15 against the boundaries
    5, 10, 20 gives the bucket counts 1, 2, 3, sum 24 and count 3. *)
Theorem observe_cumulative (h : hist_state) (v : Q) :
  hcount (hist_observe v h) = hcount h + 1 ∧
  hsum (hist_observe v h) = hsum h + v ∧
  (∀ i b n, bucketCounts h !! i = Some (b, n) →
     (bound_ge b v → bucketCounts (hist_observe v h) !! i = Some (b, n + 1)) ∧
     (¬ bound_ge b v → bucketCounts (hist_observe v h) !! i = Some (b, n))) ∧
  (∀ (H : Histogram) kwargs lv w,
     labels (h_labelnames H) kwargs = Returned lv →
     histograms (reg (observe H kwargs v w).2) !! (h_name H, lv)
     = Some (hist_observe v (hist_lookup H (reg w) lv))) ∧
  observe_all [5; 10; 20] [2; 7; 15]
  = {| bucketCounts := [(Finite 5, 1); (Finite 10, 2); (Finite 20, 3);
                        (PosInf, 3)];
       hsum := 24; hcount := 3 |}.
Proof.
  split; [done|]. split; [done|]. split; [|split].
  - intros i b n Hi. cbn [hist_observe bucketCounts].
    rewrite (observe_bucket_lookup v _ i b n Hi).
    split; intros Hb.
    + apply le_bound_ge in Hb. by rewrite Hb.
    + destruct (le_bound v b) eqn:Hle; [|done].
      exfalso. by apply Hb, le_bound_ge.
  - intros H kwargs lv w Hl. rewrite (observe_run H kwargs lv v w Hl).
    cbn. by rewrite lookup_insert_eq.
  - reflexivity.
Qed.

Lemma observe_cumulative_witness :
  (bucketCounts (hist_new [5; 10; 20]) !! 0%nat = Some (Finite 5, 0) ∧
   ¬ bound_ge (Finite 5) 7 ∧
   bucketCounts (hist_observe 7 (hist_new [5; 10; 20])) !! 0%nat
   = Some (Finite 5, 0)) ∧
  (bucketCounts (hist_new [5; 10; 20]) !! 1%nat = Some (Finite 10, 0) ∧
   bound_ge (Finite 10) 7 ∧
   bucketCounts (hist_observe 7 (hist_new [5; 10; 20])) !! 1%nat
   = Some (Finite 10, 0 + 1)).
Proof.
  assert (Hlow : ¬ bound_ge (Finite 5) 7)
    by (unfold bound_ge, Qle; simpl; lia).
  assert (Hhigh : bound_ge (Finite 10) 7)
    by (unfold bound_ge, Qle; simpl; lia).
  destruct (observe_cumulative (hist_new [5; 10; 20]) 7) as (_ & _ & Hb & _).
  split.
  - split; [reflexivity|]. split; [exact Hlow|].
    apply (Hb 0%nat (Finite 5) 0 eq_refl), Hlow.
  - split; [reflexivity|]. split; [exact Hhigh|].
    apply (Hb 1%nat (Finite 10) 0 eq_refl), Hhigh.
Defined.

(* ====================================================================== *)
(** ** Counters are monotone under every exposed operation *)
(* ====================================================================== *)

Section WrappersMonotone.

Context {Args : Type}.
Implicit Types (func : Args → M pyval) (args : Args) (w : world).

Lemma monotone_product_endpoint e func args :
  monotone (func args) →
  monotone (ProductService.track_endpoint_metrics e func args).
Proof.
  intros Hf w. rewrite product_endpoint_run. cbn [snd reg with_reg].
  eapply counters_le_trans; [apply Hf|].
  eapply counters_le_trans; [apply counters_le_reg_inc|].
  by apply counters_le_same.
Qed.

Lemma monotone_user_endpoint e func args :
  monotone (func args) →
  monotone (UserService.track_endpoint_metrics e func args).
Proof.
  intros Hf w. rewrite user_endpoint_run. cbn [snd reg with_reg].
  eapply counters_le_trans; [apply Hf|].
  eapply counters_le_trans; [apply counters_le_reg_inc|].
  by apply counters_le_same.
Qed.

Lemma monotone_database_query op tbl func args :
  monotone (func args) →
  monotone (ProductService.track_database_query op tbl func args).
Proof.
  intros Hf w. rewrite database_query_run. cbn [snd reg with_reg].
  eapply counters_le_trans; [apply Hf|]. by apply counters_le_same.
Qed.

Lemma monotone_auth_operation op func args :
  monotone (func args) →
  monotone (UserService.track_auth_operation op func args).
Proof.
  intros Hf w. rewrite auth_operation_run. cbn [snd reg with_reg].
  eapply counters_le_trans; [apply Hf|]. by apply counters_le_same.
Qed.

Lemma counters_le_cache_body op kt res r :
  counters_le r (cache_body_reg op kt res r).
Proof.
  unfold cache_body_reg. destruct res as [v|]; [|apply counters_le_refl].
  destruct (decide (op = "get")); [|apply counters_le_refl].
  destruct (is_not_None v); apply counters_le_reg_inc.
Qed.

Lemma monotone_cache_operation op kt func args :
  monotone (func args) →
  monotone (ProductService.track_cache_operation op kt func args).
Proof.
  intros Hf w. rewrite cache_operation_run. cbn [snd reg with_reg].
  eapply counters_le_trans; [apply Hf|].
  eapply counters_le_trans; [apply counters_le_cache_body|].
  eapply counters_le_trans; [apply counters_le_reg_inc|].
  by apply counters_le_same.
Qed.

End WrappersMonotone.

Lemma run_product_monotone (c : product_call) :
  wrapped_monotone (product_wrapped c) → monotone (run_product c).
Proof.
  destruct c; cbn [product_wrapped wrapped_monotone run_product]; intros Hw.
  - apply monotone_returns_None, monotone_inc.
  - apply monotone_returns_None, monotone_inc.
  - apply monotone_returns_None, monotone_inc.
  - apply monotone_returns_None, monotone_set.
  - apply monotone_returns_None, monotone_set.
  - apply monotone_returns_None.
    unfold ProductService.update_db_connection_stats.
    apply monotone_bind; [apply monotone_set|intros _].
    apply monotone_bind; [apply monotone_set|intros _].
    apply monotone_set.
  - apply monotone_generate_latest.
  - by apply (monotone_product_endpoint endpoint_name (λ _ : (), func) ()).
  - by apply (monotone_database_query operation table (λ _ : (), func) ()).
  - by apply (monotone_cache_operation operation key_type (λ _ : (), func) ()).
Qed.

Lemma run_user_monotone (c : user_call) :
  wrapped_monotone (user_wrapped c) → monotone (run_user c).
Proof.
  destruct c; cbn [user_wrapped wrapped_monotone run_user]; intros Hw;
    try (apply monotone_returns_None; first [apply monotone_inc|apply monotone_set]).
  - apply monotone_generate_latest.
  - by apply (monotone_user_endpoint endpoint_name (λ _ : (), func) ()).
  - by apply (monotone_auth_operation operation (λ _ : (), func) ()).
Qed.

(** C7: a counter instance is created at 0; an increment by a negative
    amount fails and changes nothing; an increment by a non-negative amount
    succeeds and lowers no counter; and every operation the two modules
    expose (the event recorders, the gauge updaters, the metrics endpoint and
    the decorators around a coroutine that itself lowers no counter) leaves
    every counter at least as large as it found it. *)
Theorem counters_monotone :
  (∀ k, counter_value empty_registry k = 0) ∧
  (∀ k r, counters r !! k = None →
          counters (counter_getOrCreate k r) !! k = Some 0) ∧
  (∀ k a r, a < 0 →
            counter_increment k a r = (Raised NegativeIncrementError, r)) ∧
  (∀ k a r, 0 <= a →
            (counter_increment k a r).1 = Returned () ∧
            counters_le r (counter_increment k a r).2) ∧
  (∀ c : product_call,
     wrapped_monotone (product_wrapped c) → monotone (run_product c)) ∧
  (∀ c : user_call,
     wrapped_monotone (user_wrapped c) → monotone (run_user c)).
Proof.
  split; [done|]. split; [|split; [|split; [|split]]].
  - intros k r Hk. unfold counter_getOrCreate. rewrite Hk. cbn.
    apply lookup_insert_eq.
  - apply counter_increment_negative.
  - intros k a r Ha. split; [by rewrite counter_increment_nonneg|].
    by apply counters_le_increment.
  - apply run_product_monotone.
  - apply run_user_monotone.
Qed.

Lemma get_product_body_monotone product_id :
  monotone (ProductMain.get_product_body product_id).
Proof.
  unfold ProductMain.get_product_body.
  apply monotone_bind; [apply monotone_inc|intros _; apply monotone_ret].
Qed.

Lemma counters_monotone_witness :
  (counters empty_registry !! ("product_views_total", ["prod-1"]) = None ∧
   counters (counter_getOrCreate ("product_views_total", ["prod-1"])
               empty_registry) !! ("product_views_total", ["prod-1"]) = Some 0) ∧
  (-1 < 0 ∧
   counter_increment ("product_views_total", ["prod-1"]) (-1) empty_registry
   = (Raised NegativeIncrementError, empty_registry)) ∧
  (0 <= 2 ∧
   (counter_increment ("product_views_total", ["prod-1"]) 2 empty_registry).1
   = Returned ()) ∧
  (wrapped_monotone
     (product_wrapped (P_track_endpoint_metrics "get_product"
                         (ProductMain.get_product_body "prod-1"))) ∧
   monotone (run_product (P_track_endpoint_metrics "get_product"
                            (ProductMain.get_product_body "prod-1")))) ∧
  (wrapped_monotone (user_wrapped (U_track_login_attempt false "email")) ∧
   monotone (run_user (U_track_login_attempt false "email"))).
Proof.
  destruct counters_monotone as (_ & Hcreate & Hneg & Hpos & Hprod & Huser).
  assert (Hlt : -1 < 0) by reflexivity.
  assert (Hle : 0 <= 2) by discriminate.
  assert (Hwrapped : wrapped_monotone
            (product_wrapped (P_track_endpoint_metrics "get_product"
                                (ProductMain.get_product_body "prod-1"))))
    by apply get_product_body_monotone.
  split; [|split; [|split; [|split]]].
  - split; [reflexivity|]. apply Hcreate. reflexivity.
  - split; [exact Hlt|]. apply Hneg, Hlt.
  - split; [exact Hle|]. apply (Hpos _ _ _ Hle).
  - split; [exact Hwrapped|]. apply Hprod, Hwrapped.
  - split; [exact I|]. apply Huser. exact I.
Defined.

(* ====================================================================== *)
(** ** The two HTTP metrics stay linked *)
(* ====================================================================== *)

Lemma get_product_body_linked product_id w :
  linked ProductService.http_requests_total
         ProductService.http_request_duration_seconds (reg w) →
  linked ProductService.http_requests_total
         ProductService.http_request_duration_seconds
         (reg (ProductMain.get_product_body product_id w).2).
Proof.
  intros Hl.
  change (reg (ProductMain.get_product_body product_id w).2)
    with (reg_inc ("product_views_total",
                   [product_id; "Sample Product"; "Electronics"]) 1 (reg w)).
  by apply linked_inc_other.
Qed.

(** C9: if the wrapped coroutine keeps the observation count of the
    duration histogram equal, for every (method, endpoint) pair, to the
    request counter summed over its status values, then so does the
    endpoint wrapper around it, whether the coroutine returns or raises. *)
Theorem http_metrics_linked {Args : Type} (func : Args → M pyval)
    (args : Args) (e : string) (w : world) :
  (∀ w', linked ProductService.http_requests_total
                ProductService.http_request_duration_seconds (reg w') →
         linked ProductService.http_requests_total
                ProductService.http_request_duration_seconds
                (reg (func args w').2)) →
  linked ProductService.http_requests_total
         ProductService.http_request_duration_seconds (reg w) →
  linked ProductService.http_requests_total
         ProductService.http_request_duration_seconds
         (reg (ProductService.track_endpoint_metrics e func args w).2) ∧
  linked UserService.http_requests_total
         UserService.http_request_duration_seconds
         (reg (UserService.track_endpoint_metrics e func args w).2).
Proof.
  intros Hf Hw. specialize (Hf w Hw). split.
  - rewrite product_endpoint_run. cbn [snd reg with_reg].
    by apply (linked_step ProductService.http_requests_total
                ProductService.http_request_duration_seconds).
  - rewrite user_endpoint_run. cbn [snd reg with_reg].
    by apply (linked_step UserService.http_requests_total
                UserService.http_request_duration_seconds).
Qed.

Lemma http_metrics_linked_witness :
  linked ProductService.http_requests_total
         ProductService.http_request_duration_seconds (reg w0) ∧
  linked ProductService.http_requests_total
         ProductService.http_request_duration_seconds
         (reg (ProductMain.get_product "prod-1" w0).2).
Proof.
  assert (H0 : linked ProductService.http_requests_total
                 ProductService.http_request_duration_seconds (reg w0))
    by apply linked_empty.
  split; [exact H0|].
  apply (http_metrics_linked ProductMain.get_product_body "prod-1"
           "get_product" w0 (get_product_body_linked "prod-1") H0).
Defined.

(* ====================================================================== *)
(** ** The event recorders and gauge updaters *)
(* ====================================================================== *)

Section Recorders.

Implicit Types (w : world) (r : registry).

Lemma inc_records_event (C : Counter) kwargs lv :
  labels (c_labelnames C) kwargs = Returned lv →
  records_event (inc C kwargs 1) C lv.
Proof.
  intros Hl w. rewrite (inc_run C kwargs lv w Hl). cbn [fst snd reg with_reg].
  split; [done|]. split; [apply reg_inc_incremented_once|].
  split; [apply reg_inc_gauges|]. split; [apply reg_inc_histograms|done].
Qed.

Lemma set_writes_gauge (G : Gauge) kwargs lv v :
  labels (g_labelnames G) kwargs = Returned lv →
  writes_gauge (set G kwargs v) (g_name G, lv) v.
Proof.
  intros Hl w. unfold set. rewrite Hl. cbn.
  split; [done|]. split; [|done]. split.
  - apply lookup_insert_eq.
  - intros k' Hk'. by apply lookup_insert_ne.
Qed.

End Recorders.

(** X1: the event recorders, the gauge updaters and the metrics endpoint of
    both modules return normally on every input and in every state: the
    label keywords each of them passes are exactly the label names of the
    metric it updates, and every increment is by one. *)
Theorem recorders_never_raise (w : world) :
  (∀ c : product_call,
     product_wrapped c = None → is_Returned (run_product c w).1 = true) ∧
  (∀ c : user_call,
     user_wrapped c = None → is_Returned (run_user c w).1 = true).
Proof.
  split; intros c Hc; destruct c; try discriminate Hc; reflexivity.
Qed.

Lemma recorders_never_raise_witness :
  (product_wrapped (P_track_add_to_cart "prod-1" "Product prod-1") = None ∧
   is_Returned (run_product (P_track_add_to_cart "prod-1" "Product prod-1")
                  w0).1 = true) ∧
  (user_wrapped (U_track_rate_limit_exceeded "/login" "anonymous") = None ∧
   is_Returned (run_user (U_track_rate_limit_exceeded "/login" "anonymous")
                  w0).1 = true).
Proof.
  destruct (recorders_never_raise w0) as [Hp Hu].
  split; (split; [reflexivity|]).
  - apply Hp. reflexivity.
  - apply Hu. reflexivity.
Defined.

(** X2: each counter recorder of the product service raises exactly one
    counter instance by one, the one whose label values are its arguments in
    the order of the metric's label names, and touches no other counter, no
    gauge, no histogram and not the clock. *)
Theorem product_recorders_record (product_id product_name category
    search_type : string) :
  records_event
    (ProductService.track_product_view product_id product_name category)
    ProductService.product_views_total [product_id; product_name; category] ∧
  records_event
    (ProductService.track_add_to_cart product_id product_name)
    ProductService.products_added_to_cart_total [product_id; product_name] ∧
  records_event
    (ProductService.track_product_search search_type)
    ProductService.product_search_queries_total [search_type].
Proof. repeat apply conj; by apply inc_records_event. Qed.

(** X3: every counter recorder of the user service raises exactly the
    instance named by its arguments by one and touches nothing else;
    [track_session_creation] raises the single unlabelled instance. *)
Theorem user_recorders_record (a b : string) :
  records_event (UserService.track_user_registration a)
    UserService.user_registrations_total [a] ∧
  records_event (UserService.track_failed_login_by_ip a)
    UserService.failed_login_attempts_by_ip [a] ∧
  records_event UserService.track_session_creation
    UserService.user_sessions_created_total [] ∧
  records_event (UserService.track_password_reset a)
    UserService.user_password_reset_requests_total [a] ∧
  records_event (UserService.track_profile_update a)
    UserService.user_profile_updates_total [a] ∧
  records_event (UserService.track_email_verification a)
    UserService.user_email_verifications_total [a] ∧
  records_event (UserService.track_account_action a)
    UserService.user_account_actions_total [a] ∧
  records_event (UserService.track_jwt_issued a)
    UserService.jwt_tokens_issued_total [a] ∧
  records_event (UserService.track_jwt_validated a)
    UserService.jwt_tokens_validated_total [a] ∧
  records_event (UserService.track_jwt_revoked a)
    UserService.jwt_tokens_revoked_total [a] ∧
  records_event (UserService.track_suspicious_activity a)
    UserService.suspicious_activities_total [a] ∧
  records_event (UserService.track_rate_limit_exceeded a b)
    UserService.rate_limit_exceeded_total [a; b].
Proof. repeat apply conj; by apply inc_records_event. Qed.

(** X4: [track_login_attempt] counts a successful attempt under the status
    label success and a failed one under failed, with the method as second
    label; the instance of the other status is never touched. *)
Theorem login_attempt_status (success : bool) (method : string) (w : world) :
  let r2 := reg (UserService.track_login_attempt success method w).2 in
  let hit := if success then "success" else "failed" in
  let other := if success then "failed" else "success" in
  (UserService.track_login_attempt success method w).1 = Returned () ∧
  incremented_once UserService.user_login_attempts_total [hit; method]
    (reg w) r2 ∧
  counters r2 !! ("user_login_attempts_total", [other; method])
  = counters (reg w) !! ("user_login_attempts_total", [other; method]).
Proof.
  cbn zeta.
  assert (Hr : records_event (UserService.track_login_attempt success method)
                 UserService.user_login_attempts_total
                 [if success then "success" else "failed"; method]).
  { apply inc_records_event. by destruct success. }
  destruct (Hr w) as (Hout & Hinc & _).
  split; [exact Hout|]. split; [exact Hinc|].
  destruct Hinc as [_ Hne]. apply Hne. by destruct success.
Qed.

(** X5: the gauge updaters write their argument to the gauge instance named
    by their labels whatever the instance held before, and change no other
    gauge instance, no counter and no histogram. *)
Theorem gauge_updaters_write (product_id product_name currency : string)
    (quantity count : Z) (price : Q) :
  writes_gauge
    (ProductService.update_product_inventory product_id product_name quantity)
    ("product_inventory_level", [product_id; product_name])
    (inject_Z quantity) ∧
  writes_gauge
    (ProductService.update_product_price product_id product_name price currency)
    ("product_current_price", [product_id; product_name; currency]) price ∧
  writes_gauge (UserService.update_active_sessions count)
    ("user_active_sessions", []) (inject_Z count).
Proof.
  split; [|split].
  - by apply (set_writes_gauge ProductService.product_inventory_level).
  - by apply (set_writes_gauge ProductService.product_current_price).
  - by apply (set_writes_gauge UserService.user_active_sessions).
Qed.

(** X6: [update_db_connection_stats] returns normally and leaves the three
    connection gauges holding its three arguments; every other gauge
    instance, every counter and every histogram is as before. *)
Theorem db_connection_stats_written (active idle max_conn : Z) (w : world) :
  let out := ProductService.update_db_connection_stats active idle max_conn w in
  out.1 = Returned () ∧
  gauges (reg out.2) !! ("database_connections_active", [])
  = Some (inject_Z active) ∧
  gauges (reg out.2) !! ("database_connections_idle", [])
  = Some (inject_Z idle) ∧
  gauges (reg out.2) !! ("database_connections_max", [])
  = Some (inject_Z max_conn) ∧
  (∀ k, k.1 ≠ "database_connections_active" →
        k.1 ≠ "database_connections_idle" →
        k.1 ≠ "database_connections_max" →
        gauges (reg out.2) !! k = gauges (reg w) !! k) ∧
  only_gauges_changed (reg w) (reg out.2).
Proof.
  cbn zeta.
  change (ProductService.update_db_connection_stats active idle max_conn w)
    with (Returned (),
          with_reg w
            (gauge_set ("database_connections_max", []) (inject_Z max_conn)
               (gauge_set ("database_connections_idle", []) (inject_Z idle)
                  (gauge_set ("database_connections_active", [])
                     (inject_Z active) (reg w))))).
  cbn [fst snd reg with_reg gauge_set gauges counters histograms].
  split; [done|]. split; [|split; [|split; [|split]]].
  - by rewrite lookup_insert_ne, lookup_insert_ne, lookup_insert_eq.
  - by rewrite lookup_insert_ne, lookup_insert_eq.
  - by rewrite lookup_insert_eq.
  - intros [n lv] H1 H2 H3. cbn [fst] in H1, H2, H3.
    rewrite !lookup_insert_ne; [done|congruence..].
  - done.
Qed.

(* ====================================================================== *)
(** ** What the decorators observe and when *)
(* ====================================================================== *)

Section Durations.

Context {Args : Type}.
Implicit Types (func : Args → M pyval) (args : Args) (w : world).

Lemma hist_at_observe (H : Histogram) lv v r :
  hist_at H lv (reg_observe H lv v r) = hist_observe v (hist_at H lv r).
Proof.
  unfold hist_at, hist_lookup at 1, reg_observe. cbn [histograms].
  by rewrite lookup_insert_eq.
Qed.

Lemma hist_at_reg_inc (H : Histogram) lv k r :
  hist_at H lv (reg_inc k 1 r) = hist_at H lv r.
Proof. unfold hist_at, hist_lookup. by rewrite reg_inc_histograms. Qed.

Lemma hist_at_cache_body (H : Histogram) lv op kt res r :
  hist_at H lv (cache_body_reg op kt res r) = hist_at H lv r.
Proof. unfold hist_at, hist_lookup. by rewrite cache_body_reg_histograms. Qed.

End Durations.

(** X7: the value each decorator observes is the wall-clock reading after
    the wrapped coroutine minus the reading taken before it, whether the
    coroutine returned or raised: the histogram instance afterwards is the
    instance the coroutine left with exactly that difference observed.  The
    decorators themselves leave the clock alone. *)
Theorem observed_duration_is_elapsed {Args : Type} (func : Args → M pyval)
    (args : Args) (w : world) :
  let w1 := (func args w).2 in
  let elapsed := clock w1 - clock w in
  (∀ e,
     let w2 := (ProductService.track_endpoint_metrics e func args w).2 in
     hist_at ProductService.http_request_duration_seconds ["GET"; e] (reg w2)
     = hist_observe elapsed
         (hist_at ProductService.http_request_duration_seconds ["GET"; e]
                  (reg w1)) ∧
     clock w2 = clock w1) ∧
  (∀ e,
     let w2 := (UserService.track_endpoint_metrics e func args w).2 in
     hist_at UserService.http_request_duration_seconds ["POST"; e] (reg w2)
     = hist_observe elapsed
         (hist_at UserService.http_request_duration_seconds ["POST"; e]
                  (reg w1)) ∧
     clock w2 = clock w1) ∧
  (∀ op tbl,
     let w2 := (ProductService.track_database_query op tbl func args w).2 in
     hist_at ProductService.database_query_duration_seconds [op; tbl] (reg w2)
     = hist_observe elapsed
         (hist_at ProductService.database_query_duration_seconds [op; tbl]
                  (reg w1)) ∧
     clock w2 = clock w1) ∧
  (∀ op,
     let w2 := (UserService.track_auth_operation op func args w).2 in
     hist_at UserService.auth_operation_duration_seconds [op] (reg w2)
     = hist_observe elapsed
         (hist_at UserService.auth_operation_duration_seconds [op] (reg w1)) ∧
     clock w2 = clock w1) ∧
  (∀ op kt,
     let w2 := (ProductService.track_cache_operation op kt func args w).2 in
     hist_at ProductService.redis_operation_duration_seconds [op] (reg w2)
     = hist_observe elapsed
         (hist_at ProductService.redis_operation_duration_seconds [op]
                  (reg w1)) ∧
     clock w2 = clock w1).
Proof.
  cbn zeta. split; [|split; [|split; [|split]]]; intros.
  - rewrite product_endpoint_run. cbn [snd reg with_reg clock].
    split; [|done]. by rewrite hist_at_observe, hist_at_reg_inc.
  - rewrite user_endpoint_run. cbn [snd reg with_reg clock].
    split; [|done]. by rewrite hist_at_observe, hist_at_reg_inc.
  - rewrite database_query_run. cbn [snd reg with_reg clock].
    split; [|done]. by rewrite hist_at_observe.
  - rewrite auth_operation_run. cbn [snd reg with_reg clock].
    split; [|done]. by rewrite hist_at_observe.
  - rewrite cache_operation_run. cbn [snd reg with_reg clock].
    split; [|done].
    by rewrite hist_at_observe, hist_at_reg_inc, hist_at_cache_body.
Qed.

(** X8: when the coroutine wrapped by [track_cache_operation] raises, the
    exception reaches the caller, neither the hit nor the miss counter
    moves, whatever the operation, and the operation is still counted once
    and its duration observed once. *)
Theorem cache_failure_accounting {Args : Type} (func : Args → M pyval)
    (args : Args) (w : world) (op kt : string) (e : py_exception) :
  (func args w).1 = Raised e →
  let r1 := reg (func args w).2 in
  let out := ProductService.track_cache_operation op kt func args w in
  out.1 = Raised e ∧
  counter_untouched ProductService.redis_cache_hits_total r1 (reg out.2) ∧
  counter_untouched ProductService.redis_cache_misses_total r1 (reg out.2) ∧
  counted_once ProductService.redis_operations_total [op] r1 (reg out.2) ∧
  observed_once ProductService.redis_operation_duration_seconds [op] r1
    (reg out.2).
Proof.
  intros Hres. cbn zeta.
  pose proof (cache_counters op kt func args w) as Hc.
  rewrite Hres in Hc. cbn [cache_body_reg] in Hc.
  split; [by rewrite cache_operation_run|].
  split; [|split].
  - intros lv. rewrite Hc. by rewrite reg_inc_other_name.
  - intros lv. rewrite Hc. by rewrite reg_inc_other_name.
  - apply cache_operation_recorded.
Qed.

Lemma cache_failure_accounting_witness :
  (ProductMain.get_product_from_db_body "prod-1" w0).1
  = Raised ProductMain.NameError ∧
  counter_untouched ProductService.redis_cache_misses_total
    (reg (ProductMain.get_product_from_db_body "prod-1" w0).2)
    (reg (ProductService.track_cache_operation "get" "product"
            ProductMain.get_product_from_db_body "prod-1" w0).2).
Proof.
  split; [reflexivity|].
  apply (cache_failure_accounting ProductMain.get_product_from_db_body
           "prod-1" w0 "get" "product" ProductMain.NameError eq_refl).
Defined.

(** X9: an exception that does not derive from [Exception] passes the
    [except Exception] clause of the endpoint wrappers untouched: it reaches
    the caller and the request is counted under the initial status 200. *)
Theorem uncaught_base_exception_counted_200 {Args : Type}
    (func : Args → M pyval) (args : Args) (w : world) (e : string)
    (ex : py_exception) :
  (func args w).1 = Raised ex → isinstance_Exception ex = false →
  (let out := ProductService.track_endpoint_metrics e func args w in
   out.1 = Raised ex ∧
   incremented_once ProductService.http_requests_total ["GET"; e; "200"]
     (reg (func args w).2) (reg out.2)) ∧
  (let out := UserService.track_endpoint_metrics e func args w in
   out.1 = Raised ex ∧
   incremented_once UserService.http_requests_total ["POST"; e; "200"]
     (reg (func args w).2) (reg out.2)).
Proof.
  intros Hres Hex. cbn zeta.
  assert (Hst : recorded_status (func args w).1 = 200%Z).
  { rewrite Hres. cbn. by rewrite Hex. }
  split; split.
  - by rewrite product_endpoint_run.
  - pose proof (product_endpoint_updates e func args w) as [H _].
    by rewrite Hst in H.
  - by rewrite user_endpoint_run.
  - pose proof (user_endpoint_updates e func args w) as [H _].
    by rewrite Hst in H.
Qed.

Lemma uncaught_base_exception_counted_200_witness :
  (cancelled_handler () w0).1 = Raised CancelledError ∧
  isinstance_Exception CancelledError = false ∧
  incremented_once UserService.http_requests_total ["POST"; "login"; "200"]
    (reg (cancelled_handler () w0).2)
    (reg (UserService.track_endpoint_metrics "login" cancelled_handler () w0).2).
Proof.
  split; [reflexivity|]. split; [reflexivity|].
  apply (uncaught_base_exception_counted_200 cancelled_handler () w0 "login"
           CancelledError eq_refl eq_refl).
Defined.

(* ====================================================================== *)
(** ** The request middleware of main.py *)
(* ====================================================================== *)

Section Middleware.

Import ProductMain.
Implicit Types (request : Request) (call_next : Request → M pyval) (w : world).

Lemma track_requests_returned request call_next w sc body :
  (call_next request w).1 = Returned (PyResponse sc body) →
  track_requests request call_next w =
  (Returned (PyResponse sc body),
   with_reg (call_next request w).2
     (reg_observe ProductService.http_request_duration_seconds
        [method request; url_path request]
        (clock (call_next request w).2 - clock w)
        (reg_inc ("http_requests_total",
                  [method request; url_path request; pretty sc]) 1
                 (reg (call_next request w).2)))).
Proof.
  intros Hres. unfold track_requests, mbind, M_bind, bind.
  destruct (call_next request w) as [res w1]. cbn in Hres. subst res.
  reflexivity.
Qed.

Lemma track_requests_raised request call_next w e :
  (call_next request w).1 = Raised e →
  track_requests request call_next w = call_next request w.
Proof.
  intros Hres. unfold track_requests, mbind, M_bind, bind.
  destruct (call_next request w) as [res w1]. cbn in Hres. by subst res.
Qed.

Lemma track_requests_no_status request call_next w v :
  (call_next request w).1 = Returned v → hasattr_status_code v = false →
  track_requests request call_next w
  = (Raised AttributeError, (call_next request w).2).
Proof.
  intros Hres Hv. unfold track_requests, mbind, M_bind, bind.
  destruct (call_next request w) as [res w1]. cbn in Hres. subst res.
  by destruct v.
Qed.

End Middleware.

Lemma track_requests_updates (request : ProductMain.Request)
    (call_next : ProductMain.Request → M pyval) (w : world)
    (sc : Z) (body : pyval) :
  (call_next request w).1 = Returned (PyResponse sc body) →
  let w1 := (call_next request w).2 in
  let out := ProductMain.track_requests request call_next w in
  let lv := [ProductMain.method request; ProductMain.url_path request] in
  out.1 = Returned (PyResponse sc body) ∧
  incremented_once ProductService.http_requests_total (lv ++ [pretty sc])
    (reg w1) (reg out.2) ∧
  observed_once ProductService.http_request_duration_seconds lv
    (reg w1) (reg out.2) ∧
  hist_at ProductService.http_request_duration_seconds lv (reg out.2)
  = hist_observe (clock w1 - clock w)
      (hist_at ProductService.http_request_duration_seconds lv (reg w1)).
Proof.
  intros Hres. cbn zeta.
  rewrite (track_requests_returned request call_next w sc body Hres).
  cbn [fst snd reg with_reg app].
  set (k := ("http_requests_total",
             [ProductMain.method request; ProductMain.url_path request;
              pretty sc])).
  set (r1 := reg (call_next request w).2).
  split; [done|]. split; [|split].
  - apply (reg_inc_incremented_once ProductService.http_requests_total).
  - destruct (reg_observe_observed_once
                ProductService.http_request_duration_seconds
                [ProductMain.method request; ProductMain.url_path request]
                (clock (call_next request w).2 - clock w) (reg_inc k 1 r1))
      as [Hc Ho].
    split.
    + rewrite Hc. unfold hist_count. by rewrite reg_inc_histograms.
    + intros k' Hk'. rewrite (Ho k' Hk'). by rewrite reg_inc_histograms.
  - by rewrite hist_at_observe, hist_at_reg_inc.
Qed.


(** X10: when the downstream application answers with a response, the
    middleware returns that response unchanged, counts the request once
    under the request's own method, its path and the response's status code,
    and observes the elapsed time once under the same method and path. *)
Theorem middleware_records_request (request : ProductMain.Request)
    (call_next : ProductMain.Request → M pyval) (w : world)
    (sc : Z) (body : pyval) :
  (call_next request w).1 = Returned (PyResponse sc body) →
  let w1 := (call_next request w).2 in
  let out := ProductMain.track_requests request call_next w in
  let lv := [ProductMain.method request; ProductMain.url_path request] in
  out.1 = Returned (PyResponse sc body) ∧
  incremented_once ProductService.http_requests_total (lv ++ [pretty sc])
    (reg w1) (reg out.2) ∧
  observed_once ProductService.http_request_duration_seconds lv
    (reg w1) (reg out.2) ∧
  hist_at ProductService.http_request_duration_seconds lv (reg out.2)
  = hist_observe (clock w1 - clock w)
      (hist_at ProductService.http_request_duration_seconds lv (reg w1)).
Proof. apply track_requests_updates. Qed.

Lemma middleware_records_request_witness :
  (created_handler () w0).1
  = Returned (PyResponse 201 (PyDict [("message", PyStr "Product created")])) ∧
  incremented_once ProductService.http_requests_total
    ["POST"; "/products"; "201"] (reg (created_handler () w0).2)
    (reg (ProductMain.track_requests (ProductMain.mkRequest "POST" "/products")
            (λ _, created_handler ()) w0).2).
Proof.
  split; [reflexivity|].
  apply (middleware_records_request (ProductMain.mkRequest "POST" "/products")
           (λ _, created_handler ()) w0 201
           (PyDict [("message", PyStr "Product created")]) eq_refl).
Defined.

(** X11: the middleware has no [finally] clause: when the downstream
    application raises, the exception passes through and the middleware
    records nothing, neither a request nor a duration; the world is the one
    the application left. *)
Theorem middleware_skips_failures (request : ProductMain.Request)
    (call_next : ProductMain.Request → M pyval) (w : world)
    (e : py_exception) :
  (call_next request w).1 = Raised e →
  ProductMain.track_requests request call_next w
  = (Raised e, (call_next request w).2).
Proof.
  intros Hres. rewrite (track_requests_raised request call_next w e Hres).
  rewrite <- Hres. by destruct (call_next request w).
Qed.

Lemma middleware_skips_failures_witness :
  (ProductMain.get_product_from_db_body "prod-1" w0).1
  = Raised ProductMain.NameError ∧
  ProductMain.track_requests (ProductMain.mkRequest "GET" "/products/prod-1")
    (λ _, ProductMain.get_product_from_db_body "prod-1") w0
  = (Raised ProductMain.NameError, w0).
Proof.
  split; [reflexivity|].
  apply (middleware_skips_failures
           (ProductMain.mkRequest "GET" "/products/prod-1")
           (λ _, ProductMain.get_product_from_db_body "prod-1") w0
           ProductMain.NameError eq_refl).
Defined.

(* ====================================================================== *)
(** ** Every exposed operation keeps the HTTP metrics linked *)
(* ====================================================================== *)

Section KeepsLinked.

Let C := ProductService.http_requests_total.
Let H := ProductService.http_request_duration_seconds.

Implicit Types (w : world) (r : registry).

Lemma linked_same r1 r2 :
  counters r2 = counters r1 → histograms r2 = histograms r1 →
  linked C H r1 → linked C H r2.
Proof.
  intros Hc Hh Hl m e. unfold hist_count, requests_sum.
  rewrite Hc, Hh. apply Hl.
Qed.

Lemma linked_observe_other (H' : Histogram) lv v r :
  h_name H' ≠ h_name H → linked C H r → linked C H (reg_observe H' lv v r).
Proof.
  intros Hn Hl m e. unfold requests_sum. cbn [reg_observe counters].
  rewrite <- (Hl m e). unfold hist_count. cbn [reg_observe histograms].
  rewrite lookup_insert_ne; [done|]. intros [=]. by apply Hn.
Qed.

Lemma keeps_linked_ret {A} (a : A) : keeps_linked (mret a).
Proof. by intros w Hl. Qed.

Lemma keeps_linked_bind {A B} (c : M A) (k : A → M B) :
  keeps_linked c → (∀ a, keeps_linked (k a)) → keeps_linked (c ≫= k).
Proof.
  intros Hc Hk w Hl. unfold mbind, M_bind, bind.
  specialize (Hc w Hl). destruct (c w) as [[a|e] w1]; cbn in *; [|done].
  by apply Hk.
Qed.

Lemma keeps_linked_inc (C' : Counter) kwargs :
  c_name C' ≠ c_name C → keeps_linked (inc C' kwargs 1).
Proof.
  intros Hn w Hl. unfold inc.
  destruct (labels (c_labelnames C') kwargs) as [lv|e]; [|done].
  pose proof (linked_inc_other C H (c_name C', lv) (reg w) Hn Hl) as Hk.
  unfold reg_inc in Hk.
  destruct (counter_increment _ _ _) as [o r']. exact Hk.
Qed.

Lemma keeps_linked_set (G : Gauge) kwargs v : keeps_linked (set G kwargs v).
Proof.
  intros w Hl. unfold set.
  destruct (labels (g_labelnames G) kwargs) as [lv|e]; [|done].
  by apply (linked_same (reg w)).
Qed.

Lemma keeps_linked_returns_None (c : M ()) :
  keeps_linked c → keeps_linked (returns_None c).
Proof.
  intros Hc. apply keeps_linked_bind; [done|]. intros _. apply keeps_linked_ret.
Qed.

Lemma keeps_linked_generate_latest catalog :
  keeps_linked (generate_latest catalog).
Proof. by intros w Hl. Qed.

Context {Args : Type}.
Implicit Types (func : Args → M pyval) (args : Args).

Lemma keeps_linked_product_endpoint e func args :
  keeps_linked (func args) →
  keeps_linked (ProductService.track_endpoint_metrics e func args).
Proof.
  intros Hf w Hl. rewrite product_endpoint_run. cbn [snd reg with_reg].
  apply (linked_step C H). by apply Hf.
Qed.

Lemma keeps_linked_user_endpoint e func args :
  keeps_linked (func args) →
  keeps_linked (UserService.track_endpoint_metrics e func args).
Proof.
  intros Hf w Hl. rewrite user_endpoint_run. cbn [snd reg with_reg].
  apply (linked_step C H). by apply Hf.
Qed.

Lemma keeps_linked_database_query op tbl func args :
  keeps_linked (func args) →
  keeps_linked (ProductService.track_database_query op tbl func args).
Proof.
  intros Hf w Hl. rewrite database_query_run. cbn [snd reg with_reg].
  apply linked_observe_other; [done|]. by apply Hf.
Qed.

Lemma keeps_linked_auth_operation op func args :
  keeps_linked (func args) →
  keeps_linked (UserService.track_auth_operation op func args).
Proof.
  intros Hf w Hl. rewrite auth_operation_run. cbn [snd reg with_reg].
  apply linked_observe_other; [done|]. by apply Hf.
Qed.

Lemma linked_cache_body op kt res r :
  linked C H r → linked C H (cache_body_reg op kt res r).
Proof.
  intros Hl. unfold cache_body_reg. destruct res as [v|]; [|done].
  destruct (decide (op = "get")); [|done].
  destruct (is_not_None v); by apply linked_inc_other.
Qed.

Lemma keeps_linked_cache_operation op kt func args :
  keeps_linked (func args) →
  keeps_linked (ProductService.track_cache_operation op kt func args).
Proof.
  intros Hf w Hl. rewrite cache_operation_run. cbn [snd reg with_reg].
  apply linked_observe_other; [done|].
  apply linked_inc_other; [done|].
  apply linked_cache_body. by apply Hf.
Qed.

End KeepsLinked.

Lemma run_product_keeps_linked (c : product_call) :
  wrapped_keeps_linked (product_wrapped c) → keeps_linked (run_product c).
Proof.
  destruct c; cbn [product_wrapped wrapped_keeps_linked run_product]; intros Hw.
  - by apply keeps_linked_returns_None, keeps_linked_inc.
  - by apply keeps_linked_returns_None, keeps_linked_inc.
  - by apply keeps_linked_returns_None, keeps_linked_inc.
  - apply keeps_linked_returns_None, keeps_linked_set.
  - apply keeps_linked_returns_None, keeps_linked_set.
  - apply keeps_linked_returns_None.
    unfold ProductService.update_db_connection_stats.
    apply keeps_linked_bind; [apply keeps_linked_set|intros _].
    apply keeps_linked_bind; [apply keeps_linked_set|intros _].
    apply keeps_linked_set.
  - apply keeps_linked_generate_latest.
  - by apply (keeps_linked_product_endpoint endpoint_name (λ _ : (), func) ()).
  - by apply (keeps_linked_database_query operation table (λ _ : (), func) ()).
  - by apply (keeps_linked_cache_operation operation key_type
                (λ _ : (), func) ()).
Qed.

Lemma run_user_keeps_linked (c : user_call) :
  wrapped_keeps_linked (user_wrapped c) → keeps_linked (run_user c).
Proof.
  destruct c; cbn [user_wrapped wrapped_keeps_linked run_user]; intros Hw;
    try (apply keeps_linked_returns_None;
         first [by apply keeps_linked_inc|apply keeps_linked_set]).
  - apply keeps_linked_generate_latest.
  - by apply (keeps_linked_user_endpoint endpoint_name (λ _ : (), func) ()).
  - by apply (keeps_linked_auth_operation operation (λ _ : (), func) ()).
Qed.

(** X12: no exposed operation of either module breaks the agreement between
    the duration histogram's observation count and the request counter
    summed over its status values: the recorders, gauge updaters, metrics
    endpoint, and the database, cache and authentication decorators never
    touch the two HTTP metrics, and every decorator keeps the agreement
    whenever the coroutine it wraps does.  The middleware keeps it too,
    whatever the downstream application answers. *)
Theorem exposed_operations_keep_linked :
  (∀ c : product_call,
     wrapped_keeps_linked (product_wrapped c) → keeps_linked (run_product c)) ∧
  (∀ c : user_call,
     wrapped_keeps_linked (user_wrapped c) → keeps_linked (run_user c)) ∧
  (∀ request call_next,
     keeps_linked (call_next request) →
     keeps_linked (ProductMain.track_requests request call_next)).
Proof.
  split; [apply run_product_keeps_linked|].
  split; [apply run_user_keeps_linked|].
  intros request call_next Hn w Hl. specialize (Hn w Hl).
  destruct (call_next request w).1 as [v|e] eqn:Hres.
  - destruct (hasattr_status_code v) eqn:Hv.
    + destruct v; try discriminate Hv.
      rewrite (track_requests_returned request call_next w _ _ Hres).
      cbn [snd reg with_reg].
      by apply (linked_step ProductService.http_requests_total
                  ProductService.http_request_duration_seconds).
    + by rewrite (track_requests_no_status request call_next w v Hres Hv).
  - by rewrite (track_requests_raised request call_next w e Hres).
Qed.

Lemma exposed_operations_keep_linked_witness :
  (wrapped_keeps_linked
     (product_wrapped (P_track_cache_operation "get" "product"
                         (ProductMain.get_product_body "prod-1"))) ∧
   keeps_linked (run_product (P_track_cache_operation "get" "product"
                                (ProductMain.get_product_body "prod-1")))) ∧
  (wrapped_keeps_linked (user_wrapped (U_track_jwt_issued "access")) ∧
   keeps_linked (run_user (U_track_jwt_issued "access"))) ∧
  (keeps_linked (ProductMain.get_product_body "prod-1") ∧
   keeps_linked (ProductMain.track_requests
                   (ProductMain.mkRequest "GET" "/products/prod-1")
                   (λ _, ProductMain.get_product_body "prod-1"))).
Proof.
  destruct exposed_operations_keep_linked as (Hp & Hu & Hm).
  assert (Hbody : keeps_linked (ProductMain.get_product_body "prod-1"))
    by (intros w; apply get_product_body_linked).
  split; [|split].
  - split; [exact Hbody|]. apply Hp, Hbody.
  - split; [exact I|]. apply Hu. exact I.
  - split; [exact Hbody|].
    apply (Hm (ProductMain.mkRequest "GET" "/products/prod-1")
              (λ _, ProductMain.get_product_body "prod-1") Hbody).
Defined.

(* ====================================================================== *)
(** ** The handlers of main.py *)
(* ====================================================================== *)

Section Handlers.

Import ProductMain.
Implicit Types (w : world) (r : registry).

Lemma counter_value_lookup r1 r2 k :
  counters r2 !! k = counters r1 !! k → counter_value r2 k = counter_value r1 k.
Proof. intros Hk. unfold counter_value. by rewrite Hk. Qed.

Lemma get_product_body_run product_id w :
  get_product_body product_id w =
  (Returned (PyDict [("id", PyStr product_id); ("name", PyStr "Sample Product");
                     ("description", PyStr "This is a sample product");
                     ("price", PyFloat 29.99); ("category", PyStr "Electronics");
                     ("inventory", PyInt 100)]),
   with_reg w (reg_inc ("product_views_total",
                        [product_id; "Sample Product"; "Electronics"]) 1
                 (reg w))).
Proof. reflexivity. Qed.

Lemma search_type_run search w :
  (search_products_body search w).2 =
  with_reg w
    (reg_inc ("product_search_queries_total",
              [if bool_decide (is_Some (category search))
                  && truthy (PyStr (default EmptyString (category search)))
               then "category" else "full_text"]) 1 (reg w)).
Proof.
  unfold search_products_body.
  destruct (bool_decide (is_Some (category search))
            && truthy (PyStr (default EmptyString (category search))));
    reflexivity.
Qed.

End Handlers.

(** X13: the decorated [get_product] returns, for every product id and in
    every state, the product dict carrying that id; it counts one product
    view under (id, Sample Product, Electronics), one request under
    (GET, get_product, 200) and one duration observation, and changes no
    other counter instance. *)
Theorem get_product_counts_view_and_request (product_id : string) (w : world) :
  let out := ProductMain.get_product product_id w in
  let view := [product_id; "Sample Product"; "Electronics"] in
  (∃ rest, out.1 = Returned (PyDict (("id", PyStr product_id) :: rest))) ∧
  counted_once ProductService.product_views_total view (reg w) (reg out.2) ∧
  counted_once ProductService.http_requests_total
    ["GET"; "get_product"; "200"] (reg w) (reg out.2) ∧
  observed_once ProductService.http_request_duration_seconds
    ["GET"; "get_product"] (reg w) (reg out.2) ∧
  (∀ k, k ≠ ("product_views_total", view) →
        k ≠ ("http_requests_total", ["GET"; "get_product"; "200"]) →
        counters (reg out.2) !! k = counters (reg w) !! k).
Proof.
  cbn zeta. unfold ProductMain.get_product.
  pose proof (product_endpoint_updates "get_product"
                ProductMain.get_product_body product_id w) as Hu.
  cbn zeta in Hu. rewrite (get_product_body_run product_id w) in Hu.
  cbn [fst snd reg with_reg recorded_status hasattr_status_code] in Hu.
  destruct Hu as ([Hreq Hother] & [Hcount Hhist] & _).
  set (out := ProductService.track_endpoint_metrics "get_product"
                ProductMain.get_product_body product_id w) in *.
  set (vk := ("product_views_total",
              [product_id; "Sample Product"; "Electronics"])) in *.
  split; [|split; [|split; [|split]]].
  - eexists. unfold out. rewrite product_endpoint_run.
    rewrite (get_product_body_run product_id w). reflexivity.
  - change (counter_value (reg out.2) vk = counter_value (reg w) vk + 1).
    rewrite (counter_value_lookup (reg_inc vk 1 (reg w)) (reg out.2) vk)
      by (apply Hother; discriminate).
    apply reg_inc_value_eq.
  - unfold counted_once. etransitivity; [exact Hreq|]. f_equal.
    apply counter_value_lookup, reg_inc_lookup_ne. discriminate.
  - split.
    + rewrite Hcount. unfold hist_count. by rewrite reg_inc_histograms.
    + intros k Hk. rewrite (Hhist k Hk). by rewrite reg_inc_histograms.
  - intros k Hk1 Hk2. rewrite (Hother k Hk2). by apply reg_inc_lookup_ne.
Qed.

(** X14: [search_products] counts a search as a category search exactly when
    the request carries a non-empty category; with no category, or with the
    empty string as category, it counts a full-text search.  Exactly one
    instance of the search counter moves, by one. *)
Theorem search_type_classification (search : ProductMain.ProductSearch)
    (w : world) :
  let r2 := reg (ProductMain.search_products_body search w).2 in
  (ProductMain.category search = None ∨
   ProductMain.category search = Some EmptyString →
   incremented_once ProductService.product_search_queries_total
     ["full_text"] (reg w) r2) ∧
  (∀ s, ProductMain.category search = Some s → s ≠ EmptyString →
        incremented_once ProductService.product_search_queries_total
          ["category"] (reg w) r2).
Proof.
  cbn zeta. rewrite search_type_run. cbn [reg with_reg]. split.
  - intros [Hc|Hc]; rewrite Hc; cbn;
      apply (reg_inc_incremented_once
               ProductService.product_search_queries_total).
  - intros s Hc Hs. rewrite Hc.
    assert (bool_decide (is_Some (Some s))
            && truthy (PyStr (default EmptyString (Some s))) = true) as ->.
    { rewrite bool_decide_eq_true_2 by eauto. cbn. by destruct s. }
    apply (reg_inc_incremented_once
             ProductService.product_search_queries_total).
Qed.

Lemma search_type_classification_witness :
  (incremented_once ProductService.product_search_queries_total
     ["full_text"] (reg w0)
     (reg (ProductMain.search_products_body
             (ProductMain.mkProductSearch "laptop" (Some EmptyString)) w0).2)) ∧
  (incremented_once ProductService.product_search_queries_total
     ["category"] (reg w0)
     (reg (ProductMain.search_products_body
             (ProductMain.mkProductSearch "laptop" (Some "Electronics")) w0).2)).
Proof.
  split.
  - destruct (search_type_classification
                (ProductMain.mkProductSearch "laptop" (Some EmptyString)) w0)
      as [Hfull _].
    apply Hfull. right. reflexivity.
  - destruct (search_type_classification
                (ProductMain.mkProductSearch "laptop" (Some "Electronics")) w0)
      as [_ Hcat].
    apply (Hcat "Electronics"); [reflexivity|discriminate].
Defined.

(** X15: [create_product] records the inventory under the product's own
    name, but [update_inventory] writes the instance labelled
    Product followed by the id.  Unless the product is named exactly that
    way, an inventory update after a creation leaves the instance written at
    creation with its old level and writes the new level to a second
    instance. *)
Theorem inventory_update_misses_created_instance (product : ProductMain.Product)
    (quantity : Z) (w : world) :
  ProductMain.p_name product ≠ "Product " +:+ ProductMain.p_id product →
  let w1 := (ProductMain.create_product_body product w).2 in
  let w2 := (ProductMain.update_inventory_body
               (ProductMain.p_id product, quantity) w1).2 in
  gauges (reg w2) !! ("product_inventory_level",
                      [ProductMain.p_id product; ProductMain.p_name product])
  = Some (inject_Z (ProductMain.p_inventory product)) ∧
  gauges (reg w2) !! ("product_inventory_level",
                      [ProductMain.p_id product;
                       "Product " +:+ ProductMain.p_id product])
  = Some (inject_Z quantity).
Proof.
  intros Hname. cbn zeta.
  change (reg (ProductMain.update_inventory_body
                 (ProductMain.p_id product, quantity)
                 (ProductMain.create_product_body product w).2).2)
    with (gauge_set ("product_inventory_level",
                     [ProductMain.p_id product;
                      "Product " +:+ ProductMain.p_id product])
            (inject_Z quantity)
            (gauge_set ("product_current_price",
                        [ProductMain.p_id product; ProductMain.p_name product;
                         "USD"]) (ProductMain.p_price product)
               (gauge_set ("product_inventory_level",
                           [ProductMain.p_id product;
                            ProductMain.p_name product])
                  (inject_Z (ProductMain.p_inventory product)) (reg w)))).
  cbn [gauge_set gauges]. split.
  - rewrite lookup_insert_ne by congruence.
    rewrite lookup_insert_ne by discriminate.
    apply lookup_insert_eq.
  - apply lookup_insert_eq.
Qed.

Lemma inventory_update_misses_created_instance_witness :
  let laptop := ProductMain.mkProduct "prod-1" "Laptop" "A laptop" 999
                  "Electronics" 10 None in
  ProductMain.p_name laptop ≠ "Product " +:+ ProductMain.p_id laptop ∧
  gauges (reg (ProductMain.update_inventory_body ("prod-1", 3%Z)
                 (ProductMain.create_product_body laptop w0).2).2)
    !! ("product_inventory_level", ["prod-1"; "Laptop"])
  = Some (inject_Z 10).
Proof.
  cbn zeta.
  assert (Hne : ProductMain.p_name
                  (ProductMain.mkProduct "prod-1" "Laptop" "A laptop" 999
                     "Electronics" 10 None)
                ≠ "Product " +:+ ProductMain.p_id
                    (ProductMain.mkProduct "prod-1" "Laptop" "A laptop" 999
                       "Electronics" 10 None))
    by discriminate.
  split; [exact Hne|].
  apply (inventory_update_misses_created_instance
           (ProductMain.mkProduct "prod-1" "Laptop" "A laptop" 999
              "Electronics" 10 None) 3 w0 Hne).
Defined.

(** X16: serving the [/metrics] endpoint behind the middleware is itself a
    counted request: the response carries the rendering of the registry as
    it was before, status 200, and afterwards the request counter instance
    (GET, /metrics, 200) is one higher and the duration histogram has one
    more observation. *)
Theorem scrape_is_counted (w : world) :
  let out := ProductMain.track_requests
               (ProductMain.mkRequest "GET" "/metrics") serve_metrics w in
  (∃ content, (ProductService.get_metrics w).1 = Returned content ∧
              out.1 = Returned (PyResponse 200 content)) ∧
  incremented_once ProductService.http_requests_total
    ["GET"; "/metrics"; "200"] (reg w) (reg out.2) ∧
  observed_once ProductService.http_request_duration_seconds
    ["GET"; "/metrics"] (reg w) (reg out.2).
Proof.
  cbn zeta.
  destruct (track_requests_updates
              (ProductMain.mkRequest "GET" "/metrics") serve_metrics w 200
              (PyBytes (String.concat EmptyString
                          (render_metric (reg w) <$> ProductService.catalog)))
              eq_refl) as (Hout & Hinc & Hobs & _).
  split; [|split].
  - eexists. split; [reflexivity|exact Hout].
  - exact Hinc.
  - exact Hobs.
Qed.

(** X17: [get_product_from_db] fails on every product id: its body refers
    to [asyncio], which the module never imports.  The database decorator
    passes the NameError on and still observes one duration under
    (select, products); no counter moves. *)
Theorem get_product_from_db_always_fails (product_id : string) (w : world) :
  let out := ProductMain.get_product_from_db product_id w in
  out.1 = Raised ProductMain.NameError ∧
  observed_once ProductService.database_query_duration_seconds
    ["select"; "products"] (reg w) (reg out.2) ∧
  counters (reg out.2) = counters (reg w).
Proof.
  cbn zeta. split; [reflexivity|].
  pose proof (database_query_updates "select" "products"
                ProductMain.get_product_from_db_body product_id w) as Hu.
  cbn zeta in Hu. destruct Hu as (Ho & Hc & _). by split.
Qed.

(* ====================================================================== *)
(** ** Startup, label cardinality and paging *)
(* ====================================================================== *)

Section Startup.

Implicit Types (m : gmap instance_key Q) (kvs : list (instance_key * Q)).

Lemma write_all_union kvs m : write_all kvs m = write_all kvs ∅ ∪ m.
Proof.
  revert m. induction kvs as [|[k v] kvs IH]; intros m.
  - cbn. by rewrite (left_id_L ∅ (∪)).
  - cbn [write_all foldl fst snd].
    change (write_all kvs (<[k:=v]> m) = write_all kvs (<[k:=v]> ∅) ∪ m).
    rewrite (IH (<[k:=v]> m)), (IH (<[k:=v]> ∅)).
    rewrite <- (assoc_L (∪)). f_equal.
    by rewrite insert_empty, <- insert_union_singleton_l.
Qed.

Lemma write_all_idem kvs m : write_all kvs (write_all kvs m) = write_all kvs m.
Proof.
  rewrite (write_all_union kvs (write_all kvs m)), (write_all_union kvs m).
  by rewrite (assoc_L (∪)), (idemp_L (∪)).
Qed.

Lemma startup_event_run w :
  ProductMain.startup_event w =
  (Returned (),
   with_reg w {| counters := counters (reg w);
                 gauges := write_all startup_writes (gauges (reg w));
                 histograms := histograms (reg w) |}).
Proof. reflexivity. Qed.

End Startup.

(** X18: [startup_event] returns normally and leaves the inventory gauge of
    each of the five sample products at 100; it touches no counter and no
    histogram, and running it a second time changes nothing more. *)
Theorem startup_event_baseline (w : world) :
  let out := ProductMain.startup_event w in
  out.1 = Returned () ∧
  (∀ i : Z, (1 <= i <= 5)%Z →
     gauges (reg out.2)
       !! ("product_inventory_level",
           ["prod-" +:+ pretty i; "Sample Product " +:+ pretty i])
     = Some 100) ∧
  only_gauges_changed (reg w) (reg out.2) ∧
  reg (ProductMain.startup_event out.2).2 = reg out.2.
Proof.
  cbn zeta. rewrite !startup_event_run. cbn [fst snd reg with_reg].
  split; [done|]. split; [|split; [done|]].
  - intros i Hi. cbn [gauges].
    assert (i = 1 ∨ i = 2 ∨ i = 3 ∨ i = 4 ∨ i = 5)%Z
      as [->|[->|[->|[->| ->]]]] by lia;
      unfold startup_writes, write_all;
      change (ProductMain.range_from 1 5) with [1; 2; 3; 4; 5]%Z;
      cbn [foldr foldl fst snd];
      repeat (first [ apply lookup_insert_eq
                    | rewrite lookup_insert_ne
                        by (intros Hk; vm_compute in Hk; discriminate Hk) ]).
  - cbn [counters gauges histograms]. by rewrite write_all_idem.
Qed.

Lemma startup_event_baseline_witness :
  (1 <= 3 <= 5)%Z ∧
  gauges (reg (ProductMain.startup_event w0).2)
    !! ("product_inventory_level", ["prod-3"; "Sample Product 3"]) = Some 100.
Proof.
  assert (H : (1 <= 3 <= 5)%Z) by lia.
  split; [exact H|].
  destruct (startup_event_baseline w0) as (_ & Hinv & _).
  apply (Hinv 3%Z H).
Defined.

Section Cardinality.

Implicit Types (w : world) (ids : list string).

Lemma track_product_view_run i name cat w :
  ProductService.track_product_view i name cat w =
  (Returned (),
   with_reg w (reg_inc ("product_views_total", [i; name; cat]) 1 (reg w))).
Proof. by apply (inc_run ProductService.product_views_total). Qed.

Lemma view_all_cons i ids name cat w :
  view_all (i :: ids) name cat w =
  view_all ids name cat
    (with_reg w (reg_inc ("product_views_total", [i; name; cat]) 1 (reg w))).
Proof.
  unfold view_all. cbn [ProductMain.for_each].
  unfold mbind, M_bind, bind. by rewrite track_product_view_run.
Qed.

End Cardinality.

(** X19: the product id is used as a label value as it comes: viewing
    products whose ids are pairwise distinct and have no instance yet
    creates one new instance of the view counter per id, so the number of
    counter instances grows by the number of distinct ids viewed. *)
Theorem product_views_cardinality (ids : list string) (name cat : string)
    (w : world) :
  NoDup ids →
  (∀ i, i ∈ ids →
        counters (reg w) !! ("product_views_total", [i; name; cat]) = None) →
  size (counters (reg (view_all ids name cat w).2))
  = (size (counters (reg w)) + length ids)%nat.
Proof.
  revert w. induction ids as [|i ids IH]; intros w Hnd Hfresh.
  - cbn. lia.
  - apply NoDup_cons in Hnd as [Hi Hnd].
    rewrite view_all_cons. rewrite IH; [|done|].
    + cbn [reg with_reg length].
      rewrite (reg_inc_counters _ 1 (reg w) Q01).
      rewrite map_size_insert_None by (apply Hfresh; left). lia.
    + intros j Hj. cbn [reg with_reg].
      rewrite reg_inc_lookup_ne; [apply Hfresh; by right|].
      intros [= ->]. by apply Hi.
Qed.

Lemma product_views_cardinality_witness :
  NoDup ["prod-1"; "prod-2"; "prod-3"] ∧
  size (counters (reg (view_all ["prod-1"; "prod-2"; "prod-3"]
                         "Sample Product" "Electronics" w0).2)) = 3%nat.
Proof.
  assert (Hnd : NoDup ["prod-1"; "prod-2"; "prod-3"]).
  { repeat (apply NoDup_cons; split;
            [intros Hin; repeat (apply elem_of_cons in Hin as [Hin|Hin];
                                 [discriminate Hin|]);
             by apply elem_of_nil in Hin|]).
    apply NoDup_nil. done. }
  split; [exact Hnd|].
  apply (product_views_cardinality ["prod-1"; "prod-2"; "prod-3"]
           "Sample Product" "Electronics" w0 Hnd).
  intros i _. apply lookup_empty.
Defined.



(* ====================================================================== *)
(** ** Middleware and decorator together *)
(* ====================================================================== *)

Section DoubleCount.

Implicit Types (w : world) (r : registry).



End DoubleCount.



Lemma db_connection_stats_written_witness :
  ("product_inventory_level", ["prod-1"; "Laptop"]).1
    ≠ "database_connections_active" ∧
  gauges (reg (ProductService.update_db_connection_stats 4 6 10
                 (ProductService.update_product_inventory "prod-1" "Laptop" 7
                    w0).2).2)
    !! ("product_inventory_level", ["prod-1"; "Laptop"])
  = Some (inject_Z 7).
Proof.
  assert (H1 : ("product_inventory_level", ["prod-1"; "Laptop"]).1
               ≠ "database_connections_active") by discriminate.
  assert (H2 : ("product_inventory_level", ["prod-1"; "Laptop"]).1
               ≠ "database_connections_idle") by discriminate.
  assert (H3 : ("product_inventory_level", ["prod-1"; "Laptop"]).1
               ≠ "database_connections_max") by discriminate.
  split; [exact H1|].
  destruct (db_connection_stats_written 4 6 10
              (ProductService.update_product_inventory "prod-1" "Laptop" 7
                 w0).2) as (_ & _ & _ & _ & Hother & _).
  rewrite (Hother ("product_inventory_level", ["prod-1"; "Laptop"]) H1 H2 H3).
  reflexivity.
Defined.

Lemma get_product_counts_view_and_request_witness :
  ("product_search_queries_total", ["full_text"])
    ≠ ("product_views_total", ["prod-1"; "Sample Product"; "Electronics"]) ∧
  counters (reg (ProductMain.get_product "prod-1" w0).2)
    !! ("product_search_queries_total", ["full_text"])
  = counters (reg w0) !! ("product_search_queries_total", ["full_text"]).
Proof.
  assert (H1 : ("product_search_queries_total", ["full_text"])
               ≠ ("product_views_total",
                  ["prod-1"; "Sample Product"; "Electronics"]))
    by discriminate.
  assert (H2 : ("product_search_queries_total", ["full_text"])
               ≠ ("http_requests_total", ["GET"; "get_product"; "200"]))
    by discriminate.
  split; [exact H1|].
  destruct (get_product_counts_view_and_request "prod-1" w0)
    as (_ & _ & _ & _ & Hother).
  apply (Hother _ H1 H2).
Defined.
